(** * clip2_process.py: a shallow embedding and its verified properties

    The script [scripts/clip2_process.py] imports its dependencies, defines
    [process_image] and, run as a program, prints one JSON document.  The
    embedding below follows the script statement by statement.  What the
    script calls in [transformers], [torch] and [PIL] is a parameter (a
    [library]), and so is [float.__repr__] on a finite non-zero double; the
    encoder and the decoder of the [json] module, which decide whether the
    printed text is JSON, are written out. *)

From Stdlib Require Import List String Ascii ZArith NArith Bool Arith Lia.
From Corelib Require Import SpecFloat.
Import ListNotations.

Set Implicit Arguments.
Local Open Scope list_scope.

(** ** Python data *)

(** A Python [str] is a sequence of Unicode code points. *)
Definition pystr := list N.

(** [py "text"] is the Python literal ['text'] (ASCII only). *)
Definition py (s : string) : pystr := map N_of_ascii (list_ascii_of_string s).

(** A Python [float] is an IEEE 754 double; [0.0] is the positive zero. *)
Definition pyfloat := spec_float.
Definition zero : pyfloat := S754_zero false.

(** The objects the script builds: strings, floats, lists and dicts.  A dict
    keeps its keys in insertion order, which is the order [json.dumps]
    prints them in. *)
#[local] Unset Elimination Schemes.
Inductive pyvalue : Type :=
| PyStr (s : pystr)
| PyFloat (f : pyfloat)
| PyList (l : list pyvalue)
| PyDict (d : list (pystr * pyvalue)).
#[local] Set Elimination Schemes.

Definition pydict := list (pystr * pyvalue).

Definition keys (d : pydict) : list pystr := map fst d.

Definition pystr_eqb (a b : pystr) : bool :=
  if list_eq_dec N.eq_dec a b then true else false.

Fixpoint dict_get (d : pydict) (k : pystr) : option pyvalue :=
  match d with
  | [] => None
  | (k', v) :: rest => if pystr_eqb k k' then Some v else dict_get rest k
  end.

Definition is_float (v : pyvalue) : bool :=
  match v with PyFloat _ => true | _ => false end.

(** ** Exceptions *)

(** The built-in classes that matter to the two [except] clauses of the
    script, with their base class. *)
Inductive exc_class : Set :=
| BaseException
| Exception
| KeyboardInterrupt
| SystemExit
| GeneratorExit
| ImportError
| ModuleNotFoundError
| OSError
| FileNotFoundError
| UnidentifiedImageError
| ValueError
| RuntimeError
| MemoryError
| IndexError
| AttributeError.

Definition exc_class_eqb (a b : exc_class) : bool :=
  match a, b with
  | BaseException, BaseException | Exception, Exception
  | KeyboardInterrupt, KeyboardInterrupt | SystemExit, SystemExit
  | GeneratorExit, GeneratorExit | ImportError, ImportError
  | ModuleNotFoundError, ModuleNotFoundError | OSError, OSError
  | FileNotFoundError, FileNotFoundError
  | UnidentifiedImageError, UnidentifiedImageError
  | ValueError, ValueError | RuntimeError, RuntimeError
  | MemoryError, MemoryError | IndexError, IndexError
  | AttributeError, AttributeError => true
  | _, _ => false
  end.

Definition base (c : exc_class) : option exc_class :=
  match c with
  | BaseException => None
  | Exception | KeyboardInterrupt | SystemExit | GeneratorExit =>
      Some BaseException
  | ModuleNotFoundError => Some ImportError
  | FileNotFoundError | UnidentifiedImageError => Some OSError
  | ImportError | OSError | ValueError | RuntimeError | MemoryError
  | IndexError | AttributeError => Some Exception
  end.

(** [issubclass c d], walking up the bases (the hierarchy is four deep). *)
Fixpoint issubclass_upto (n : nat) (c d : exc_class) : bool :=
  exc_class_eqb c d ||
  match n with
  | O => false
  | S n' => match base c with
            | Some b => issubclass_upto n' b d
            | None => false
            end
  end.

Definition issubclass : exc_class -> exc_class -> bool := issubclass_upto 4.

(** A raised exception: its class and what [str(e)] gives. *)
Record exn : Type := mk_exn { exn_class : exc_class; exn_str : pystr }.

Definition isinstance (e : exn) (c : exc_class) : bool :=
  issubclass (exn_class e) c.

(** The outcome of evaluating a Python expression. *)
Inductive result (A : Type) : Type :=
| Ok (a : A)
| Raise (e : exn).
Arguments Ok {A} a.
Arguments Raise {A} e.

(** ** The calls into [transformers], [torch] and [PIL] *)

(** One entry per call site of [process_image]; [no_grad] is entering
    [with torch.no_grad()], [tensor_norm t dim keepdim] is
    [t.norm(dim=dim, keepdim=keepdim)], [tensor_truediv] is [/],
    [tensor_getitem t i] is [t[i]], and [tensor_tolist], applied to that one
    row, gives its components as Python floats.  Each call returns or
    raises. *)
Record library : Type := {
  model : Type;
  processor : Type;
  image : Type;
  inputs : Type;
  tensor : Type;
  CLIPModel_from_pretrained : pystr -> result model;
  CLIPProcessor_from_pretrained : pystr -> result processor;
  Image_open : pystr -> result image;
  image_convert : image -> pystr -> result image;
  processor_call : processor -> image -> pystr -> result inputs;
  no_grad : result unit;
  get_image_features : model -> inputs -> result tensor;
  tensor_norm : tensor -> Z -> bool -> result tensor;
  tensor_truediv : tensor -> tensor -> result tensor;
  tensor_getitem : tensor -> Z -> result tensor;
  tensor_tolist : tensor -> result (list pyfloat)
}.

(** The external calls a run makes, in order.  [CallImageOpen p] is the only
    one that touches the file at [p]. *)
Inductive call : Type :=
| CallModelFromPretrained (name : pystr)
| CallProcessorFromPretrained (name : pystr)
| CallImageOpen (path : pystr)
| CallConvert (mode : pystr)
| CallProcessor (return_tensors : pystr)
| CallNoGrad
| CallGetImageFeatures
| CallNorm (dim : Z) (keepdim : bool)
| CallTrueDiv
| CallGetItem (i : Z)
| CallToList.

(** A computation: the calls it made and how it ended. *)
Definition io (A : Type) : Type := (list call * result A)%type.

Definition ret {A} (a : A) : io A := ([], Ok a).

Definition bind {A B} (m : io A) (k : A -> io B) : io B :=
  match m with
  | (tr, Ok a) => let (tr', r) := k a in (tr ++ tr', r)
  | (tr, Raise e) => (tr, Raise e)
  end.

Definition ext {A} (c : call) (r : result A) : io A := ([c], r).

Notation "x <- m ;; k" := (bind m (fun x => k))
  (at level 61, m at next level, right associativity).

(** [try: body / except cls as e: handler e] *)
Definition try_except {A} (body : io A) (cls : exc_class)
    (handler : exn -> io A) : io A :=
  match body with
  | (tr, Ok a) => (tr, Ok a)
  | (tr, Raise e) =>
      if isinstance e cls
      then let (tr', r) := handler e in (tr ++ tr', r)
      else (tr, Raise e)
  end.

(** ** [process_image] *)

Definition model_name : pystr := py "openai/clip-vit-base-patch32".

(** [[0.0] * 512] *)
Definition zero_embedding : pyvalue := PyList (repeat (PyFloat zero) 512).

(** The document of the branch [if not HAS_CLIP]. *)
Definition fallback_document (image_path : pystr) : pydict :=
  [ (py "caption", PyStr (py "Image: " ++ image_path));
    (py "embedding", zero_embedding) ].

(** The document of the [except Exception as e] handler. *)
Definition error_document (e : exn) : pydict :=
  [ (py "caption", PyStr (py "Error processing image: " ++ exn_str e));
    (py "embedding", zero_embedding) ].

(** The document returned at the end of the [try] body. *)
Definition success_document (image_path : pystr) (embedding : list pyfloat)
    : pydict :=
  [ (py "caption", PyStr (py "Image from " ++ image_path));
    (py "embedding", PyList (map PyFloat embedding)) ].

(** The body of the [try] statement, lines 29 to 54. *)
Definition try_body (L : library) (image_path : pystr) : io pydict :=
  mdl <- ext (CallModelFromPretrained model_name)
             (CLIPModel_from_pretrained L model_name) ;;
  prc <- ext (CallProcessorFromPretrained model_name)
             (CLIPProcessor_from_pretrained L model_name) ;;
  opened <- ext (CallImageOpen image_path) (Image_open L image_path) ;;
  img <- ext (CallConvert (py "RGB")) (image_convert L opened (py "RGB")) ;;
  inp <- ext (CallProcessor (py "pt")) (processor_call L prc img (py "pt")) ;;
  _ <- ext CallNoGrad (no_grad L) ;;
  image_features <- ext CallGetImageFeatures (get_image_features L mdl inp) ;;
  nrm <- ext (CallNorm (-1) true) (tensor_norm L image_features (-1) true) ;;
  image_features <- ext CallTrueDiv (tensor_truediv L image_features nrm) ;;
  row <- ext (CallGetItem 0) (tensor_getitem L image_features 0) ;;
  embedding <- ext CallToList (tensor_tolist L row) ;;
  ret (success_document image_path embedding).

(** The order of the external calls when none of them raises. *)
Definition success_calls (image_path : pystr) : list call :=
  [ CallModelFromPretrained model_name;
    CallProcessorFromPretrained model_name;
    CallImageOpen image_path;
    CallConvert (py "RGB");
    CallProcessor (py "pt");
    CallNoGrad;
    CallGetImageFeatures;
    CallNorm (-1) true;
    CallTrueDiv;
    CallGetItem 0;
    CallToList ].

Definition process_image (HAS_CLIP : bool) (L : library)
    (image_path : pystr) : io pydict :=
  if negb HAS_CLIP then
    ret (fallback_document image_path)
  else
    try_except (try_body L image_path) Exception
      (fun e => ret (error_document e)).

(** ** [json.dumps] *)

(** The script prints [json.dumps(result)].  The function belongs to
    Python's standard library ([json/encoder.py]); this is what it does,
    with its default arguments ([ensure_ascii], [allow_nan], no indent), on
    the values the script hands it: dicts with string keys, strings, floats
    and lists. *)

Local Open Scope N_scope.

(** One lower-case hexadecimal digit, and ['{0:04x}'.format(n)] for
    [n < 0x10000]. *)
Definition hexdigit (d : N) : N := if d <? 10 then 48 + d else 87 + d.

Definition hex4 (n : N) : pystr :=
  [ hexdigit (n / 4096 mod 16); hexdigit (n / 256 mod 16);
    hexdigit (n / 16 mod 16); hexdigit (n mod 16) ].

(** [\uXXXX] *)
Definition u_escape (n : N) : pystr := 92 :: 117 :: hex4 n.

(** The replacement [json.encoder.py_encode_basestring_ascii] makes for one
    character: the two-character escapes of [ESCAPE_DCT], the character
    itself between [' '] and ['~'], and [\uXXXX] otherwise, as a surrogate
    pair above the basic plane. *)
Definition escape_char (c : N) : pystr :=
  if c =? 34 then [92; 34]
  else if c =? 92 then [92; 92]
  else if c =? 10 then [92; 110]
  else if c =? 13 then [92; 114]
  else if c =? 9 then [92; 116]
  else if c =? 8 then [92; 98]
  else if c =? 12 then [92; 102]
  else if (32 <=? c) && (c <=? 126) then [c]
  else if c <? 65536 then u_escape c
  else
    let n := c - 65536 in
    let s1 := N.lor 55296 (N.land (N.shiftr n 10) 1023) in
    let s2 := N.lor 56320 (N.land n 1023) in
    u_escape s1 ++ u_escape s2.

Definition encode_basestring_ascii (s : pystr) : pystr :=
  34 :: flat_map escape_char s ++ [34].

(** [sep.join(parts)] *)
Fixpoint join (sep : pystr) (parts : list pystr) : pystr :=
  match parts with
  | [] => []
  | p :: rest =>
      match rest with
      | [] => p
      | _ :: _ => p ++ sep ++ join sep rest
      end
  end.

Section Json.

(** [float.__repr__] on a finite non-zero double (sign, mantissa, exponent):
    the shortest decimal text that reads back as the same double.  It is
    part of the interpreter, not of the script. *)
Variable repr_finite : bool -> positive -> Z -> pystr.

Definition float_repr (f : pyfloat) : pystr :=
  match f with
  | S754_zero false => py "0.0"
  | S754_zero true => py "-0.0"
  | S754_infinity false => py "inf"
  | S754_infinity true => py "-inf"
  | S754_nan => py "nan"
  | S754_finite s m e => repr_finite s m e
  end.

(** [floatstr] of [json.encoder], with the default [allow_nan=True]. *)
Definition floatstr (f : pyfloat) : pystr :=
  match f with
  | S754_nan => py "NaN"
  | S754_infinity false => py "Infinity"
  | S754_infinity true => py "-Infinity"
  | _ => float_repr f
  end.

(** [json.dumps(v)] with the default separators [', '] and [': ']. *)
Fixpoint json_dumps (v : pyvalue) : pystr :=
  match v with
  | PyStr s => encode_basestring_ascii s
  | PyFloat f => floatstr f
  | PyList l => 91 :: join (py ", ") (map json_dumps l) ++ [93]
  | PyDict d =>
      123 :: join (py ", ")
               (map (fun kv : pystr * pyvalue =>
                       let (k, x) := kv in
                       encode_basestring_ascii k ++ py ": " ++ json_dumps x)
                    d) ++ [125]
  end.

End Json.

(** ** [json.loads] *)

(** What it means for the printed text to be JSON: a decoder reads it.  The
    decoder below follows Python's [json/decoder.py] and [json/scanner.py];
    with [allow_constants] off it keeps to the grammar of RFC 8259. *)

(** What the decoder builds.  A number keeps its text; [JConstant] is one of
    the three names [NaN], [Infinity] and [-Infinity], which Python's decoder
    reads and RFC 8259 does not have. *)
#[local] Unset Elimination Schemes.
Inductive json : Type :=
| JNull
| JTrue
| JFalse
| JNumber (literal : pystr)
| JConstant (name : pystr)
| JString (s : pystr)
| JArray (l : list json)
| JObject (members : list (pystr * json)).
#[local] Set Elimination Schemes.

Definition is_ws (c : N) : bool :=
  (c =? 32) || (c =? 9) || (c =? 10) || (c =? 13).

Fixpoint skip_ws (s : pystr) : pystr :=
  match s with
  | c :: r => if is_ws c then skip_ws r else s
  | [] => []
  end.

Fixpoint strip_prefix (p s : pystr) : option pystr :=
  match p, s with
  | [], _ => Some s
  | a :: p', b :: s' => if a =? b then strip_prefix p' s' else None
  | _ :: _, [] => None
  end.

Fixpoint span (p : N -> bool) (s : pystr) : pystr * pystr :=
  match s with
  | c :: r => if p c then let (a, b) := span p r in (c :: a, b) else ([], s)
  | [] => ([], [])
  end.

(** *** Numbers: [number = [ minus ] int [ frac ] [ exp ]] *)

Definition is_digit (c : N) : bool := (48 <=? c) && (c <=? 57).

Definition is_num_char (c : N) : bool :=
  is_digit c || (c =? 45) || (c =? 43) || (c =? 46) || (c =? 101) || (c =? 69).

(** One or more digits; what follows them. *)
Definition check_digits1 (s : pystr) : option pystr :=
  match s with
  | c :: r => if is_digit c then Some (snd (span is_digit r)) else None
  | [] => None
  end.

(** [int = zero / ( digit1-9 *DIGIT )] *)
Definition check_int (s : pystr) : option pystr :=
  match s with
  | c :: r => if c =? 48 then Some r else check_digits1 s
  | [] => None
  end.

(** [[ frac ]], [frac = decimal-point 1*DIGIT] *)
Definition check_frac (s : pystr) : option pystr :=
  match s with
  | c :: r => if c =? 46 then check_digits1 r else Some s
  | [] => Some s
  end.

(** [[ exp ]], [exp = e [ minus / plus ] 1*DIGIT] *)
Definition check_exp (s : pystr) : option pystr :=
  match s with
  | c :: r =>
      if (c =? 101) || (c =? 69) then
        match r with
        | sg :: r' =>
            if (sg =? 43) || (sg =? 45) then check_digits1 r'
            else check_digits1 r
        | [] => None
        end
      else Some s
  | [] => Some s
  end.

Definition drop_minus (s : pystr) : pystr :=
  match s with
  | c :: r => if c =? 45 then r else s
  | [] => []
  end.

Definition is_json_number (tok : pystr) : bool :=
  match check_int (drop_minus tok) with
  | Some s1 =>
      match check_frac s1 with
      | Some s2 =>
          match check_exp s2 with
          | Some [] => true
          | _ => false
          end
      | None => false
      end
  | None => false
  end.

(** *** Strings *)

Definition hex_value (c : N) : option N :=
  if is_digit c then Some (c - 48)
  else if (97 <=? c) && (c <=? 102) then Some (c - 87)
  else if (65 <=? c) && (c <=? 70) then Some (c - 55)
  else None.

Definition hex4_value (a b c d : N) : option N :=
  match hex_value a, hex_value b, hex_value c, hex_value d with
  | Some x, Some y, Some z, Some w => Some (((x * 16 + y) * 16 + z) * 16 + w)
  | _, _, _, _ => None
  end.

(** The character a two-character escape stands for. *)
Definition simple_escape (c : N) : option N :=
  if c =? 34 then Some 34
  else if c =? 92 then Some 92
  else if c =? 47 then Some 47
  else if c =? 98 then Some 8
  else if c =? 102 then Some 12
  else if c =? 110 then Some 10
  else if c =? 114 then Some 13
  else if c =? 116 then Some 9
  else None.

(** The body of a string up to its closing quote, one unit per character or
    escape; a unit from a [\uXXXX] escape is flagged.  A raw control
    character is refused. *)
Fixpoint scan_units (s : pystr) : option (list (bool * N) * pystr) :=
  match s with
  | [] => None
  | c :: r =>
      if c =? 34 then Some ([], r)
      else if c =? 92 then
        match r with
        | [] => None
        | e :: r' =>
            if e =? 117 then
              match r' with
              | a :: b :: c' :: d :: r'' =>
                  match hex4_value a b c' d with
                  | Some u =>
                      match scan_units r'' with
                      | Some (us, rest) => Some ((true, u) :: us, rest)
                      | None => None
                      end
                  | None => None
                  end
              | _ => None
              end
            else
              match simple_escape e with
              | Some ch =>
                  match scan_units r' with
                  | Some (us, rest) => Some ((false, ch) :: us, rest)
                  | None => None
                  end
              | None => None
              end
        end
      else if c <? 32 then None
      else
        match scan_units r with
        | Some (us, rest) => Some ((false, c) :: us, rest)
        | None => None
        end
  end.

Definition is_high_surrogate (u : N) : bool := (55296 <=? u) && (u <=? 56319).
Definition is_low_surrogate (u : N) : bool := (56320 <=? u) && (u <=? 57343).

(** An escaped high surrogate followed by an escaped low one is one
    character. *)
Fixpoint combine_surrogates (us : list (bool * N)) : pystr :=
  match us with
  | [] => []
  | (true, hi) :: rest =>
      match rest with
      | (true, lo) :: rest' =>
          if is_high_surrogate hi && is_low_surrogate lo
          then 65536 + N.lor (N.shiftl (hi - 55296) 10) (lo - 56320)
               :: combine_surrogates rest'
          else hi :: combine_surrogates rest
      | _ => hi :: combine_surrogates rest
      end
  | (false, c) :: rest => c :: combine_surrogates rest
  end.

Definition scan_string (s : pystr) : option (pystr * pystr) :=
  match scan_units s with
  | Some (us, rest) => Some (combine_surrogates us, rest)
  | None => None
  end.

(** *** Values *)

Section Decoder.

(** [true] for Python's decoder, which reads [NaN], [Infinity] and
    [-Infinity]; [false] for the grammar of RFC 8259. *)
Variable allow_constants : bool.

Definition parse_constant (s : pystr) : option (json * pystr) :=
  if allow_constants then
    match strip_prefix (py "NaN") s with
    | Some r => Some (JConstant (py "NaN"), r)
    | None =>
    match strip_prefix (py "Infinity") s with
    | Some r => Some (JConstant (py "Infinity"), r)
    | None =>
    match strip_prefix (py "-Infinity") s with
    | Some r => Some (JConstant (py "-Infinity"), r)
    | None => None
    end end end
  else None.

(** [true], [false], [null], a number, or a constant. *)
Definition parse_atom (s : pystr) : option (json * pystr) :=
  match strip_prefix (py "true") s with
  | Some r => Some (JTrue, r)
  | None =>
  match strip_prefix (py "false") s with
  | Some r => Some (JFalse, r)
  | None =>
  match strip_prefix (py "null") s with
  | Some r => Some (JNull, r)
  | None =>
      let (tok, r) := span is_num_char s in
      if is_json_number tok then Some (JNumber tok, r)
      else parse_constant s
  end end end.

Fixpoint parse_value (fuel : nat) (s : pystr) {struct fuel}
    : option (json * pystr) :=
  match fuel with
  | O => None
  | S f =>
      match skip_ws s with
      | [] => None
      | c :: r =>
          if c =? 34 then
            match scan_string r with
            | Some (str, rest) => Some (JString str, rest)
            | None => None
            end
          else if c =? 91 then
            match skip_ws r with
            | c' :: r' =>
                if c' =? 93 then Some (JArray [], r')
                else
                  match parse_elements f r with
                  | Some (l, rest) => Some (JArray l, rest)
                  | None => None
                  end
            | [] => None
            end
          else if c =? 123 then
            match skip_ws r with
            | c' :: r' =>
                if c' =? 125 then Some (JObject [], r')
                else
                  match parse_members f r with
                  | Some (l, rest) => Some (JObject l, rest)
                  | None => None
                  end
            | [] => None
            end
          else parse_atom (c :: r)
      end
  end

with parse_elements (fuel : nat) (s : pystr) {struct fuel}
    : option (list json * pystr) :=
  match fuel with
  | O => None
  | S f =>
      match parse_value f s with
      | Some (v, r) =>
          match skip_ws r with
          | c :: r' =>
              if c =? 44 then
                match parse_elements f r' with
                | Some (l, rest) => Some (v :: l, rest)
                | None => None
                end
              else if c =? 93 then Some ([v], r')
              else None
          | [] => None
          end
      | None => None
      end
  end

with parse_members (fuel : nat) (s : pystr) {struct fuel}
    : option (list (pystr * json) * pystr) :=
  match fuel with
  | O => None
  | S f =>
      match skip_ws s with
      | q :: r =>
          if q =? 34 then
            match scan_string r with
            | Some (k, r1) =>
                match skip_ws r1 with
                | c1 :: r2 =>
                    if c1 =? 58 then
                      match parse_value f r2 with
                      | Some (v, r3) =>
                          match skip_ws r3 with
                          | c3 :: r4 =>
                              if c3 =? 44 then
                                match parse_members f r4 with
                                | Some (l, rest) => Some ((k, v) :: l, rest)
                                | None => None
                                end
                              else if c3 =? 125 then Some ([(k, v)], r4)
                              else None
                          | [] => None
                          end
                      | None => None
                      end
                    else None
                | [] => None
                end
            | None => None
            end
          else None
      | [] => None
      end
  end.

(** One value, with white space around it and nothing after it.  Each level
    of nesting costs two units of fuel and at least one character. *)
Definition json_loads (s : pystr) : option json :=
  match parse_value (2 * List.length s + 2) s with
  | Some (v, rest) =>
      match skip_ws rest with
      | [] => Some v
      | _ :: _ => None
      end
  | None => None
  end.

End Decoder.

(** [print(text)] writes [text] and a newline. *)
Definition print (text : pystr) : pystr := text ++ [10].

(** ** What the decoder makes of the encoder's text *)

Definition is_printable (c : N) : bool := (32 <=? c) && (c <=? 126).

(** The units [scan_units] finds where the encoder wrote the character
    [c]. *)
Definition units_of_char (c : N) : list (bool * N) :=
  if (c =? 34) || (c =? 92) || (c =? 10) || (c =? 13) || (c =? 9)
     || (c =? 8) || (c =? 12) || is_printable c
  then [(false, c)]
  else if c <? 65536 then [(true, c)]
  else [ (true, N.lor 55296 (N.land (N.shiftr (c - 65536) 10) 1023));
         (true, N.lor 56320 (N.land (c - 65536) 1023)) ].

(** The string the decoder reads back from the encoding of [s]. *)
Definition decoded (s : pystr) : pystr :=
  combine_surrogates (flat_map units_of_char s).

(** A Unicode scalar value: a code point that is not a surrogate. *)
Definition is_scalar (c : N) : bool :=
  (c <? 55296) || ((57344 <=? c) && (c <? 1114112)).

Definition is_finite_float (f : pyfloat) : bool :=
  match f with
  | S754_nan | S754_infinity _ => false
  | S754_zero _ | S754_finite _ _ _ => true
  end.

Section Readback.

Variable repr_finite : bool -> positive -> Z -> pystr.

(** The elements of a list of floats as [json.dumps] writes them. *)
Definition float_items (l : list pyfloat) : pystr :=
  join (py ", ") (map (floatstr repr_finite) l).

(** What the decoder reads for one float. *)
Definition float_json (f : pyfloat) : json :=
  match f with
  | S754_nan => JConstant (py "NaN")
  | S754_infinity false => JConstant (py "Infinity")
  | S754_infinity true => JConstant (py "-Infinity")
  | _ => JNumber (float_repr repr_finite f)
  end.

End Readback.

(** [s] is [r] after some number characters: what each part of the number
    grammar takes from its input. *)
Definition takes_prefix (s r : pystr) : Prop :=
  exists a, s = a ++ r /\ forallb is_num_char a = true.

(** The decoder can read the text of [x]: always when it reads the three
    constants, otherwise when [x] is not one of them. *)
Definition readable (allow : bool) (x : pyfloat) : bool :=
  allow || is_finite_float x.

(** [out] is one line that holds one JSON text and nothing else: printable
    ASCII characters, so no line break of any kind, then the newline
    [print] adds; and the decoder reads the text as [v]. *)
Definition json_line (allow_constants : bool) (out : pystr) (v : json)
    : Prop :=
  exists text,
    out = print text
    /\ forallb is_printable text = true
    /\ json_loads allow_constants text = Some v.

(** ** The program *)

(** How a run ends: [Exit c] is the exit code [c] (0 at the end of the
    script, [c] for [sys.exit(c)]); [Uncaught e] is an exception that reached
    the top level, where the interpreter ends the process: with a traceback
    on standard error and a non-zero status, or, for a [SystemExit] raised
    by a library, with the status it carries.  The script writes nothing
    more in that case. *)
Inductive termination : Type :=
| Exit (code : Z)
| Uncaught (e : exn).

(** What a run leaves behind: the text the script wrote on the two streams,
    the external calls it made, and how it ended. *)
Record process : Type := {
  stdout : pystr;
  stderr : pystr;
  calls : list call;
  status : termination
}.

Definition warning : pystr :=
  py "Warning: transformers not installed. Install with: pip install transformers torch pillow".

Definition usage : pydict :=
  [ (py "error", PyStr (py "Usage: clip2_process.py <image_path>")) ].

(** Where the script runs: what each of its three third-party imports does
    (lines 9, 10 and 13), and the library behind the names they bind. *)
Record environment : Type := {
  import_torch : result unit;
  import_PIL_Image : result unit;
  import_transformers : result unit;
  lib : library
}.

(** [import m] when the module [m] is not installed. *)
Definition missing (m : string) : result unit :=
  Raise (mk_exn ModuleNotFoundError (py "No module named '" ++ py m ++ py "'")).

(** Lines 7 to 17: the imports and the value of [HAS_CLIP], with what the
    script wrote on standard error on the way. *)
Definition module_level (env : environment) : pystr * result bool :=
  match import_torch env with
  | Raise e => ([], Raise e)
  | Ok _ =>
      match import_PIL_Image env with
      | Raise e => ([], Raise e)
      | Ok _ =>
          match import_transformers env with
          | Ok _ => ([], Ok true)
          | Raise e =>
              if isinstance e ImportError
              then (print warning, Ok false)
              else ([], Raise e)
          end
      end
  end.

Section Program.

Variable repr_finite : bool -> positive -> Z -> pystr.

(** Lines 61 to 68, the block under [if __name__ == "__main__"]. *)
Definition main (HAS_CLIP : bool) (L : library) (argv : list pystr)
    : process :=
  if (List.length argv <? 2)%nat then
    {| stdout := [];
       stderr := print (json_dumps repr_finite (PyDict usage));
       calls := [];
       status := Exit 1 |}
  else
    let image_path := nth 1 argv [] in
    match process_image HAS_CLIP L image_path with
    | (tr, Ok result) =>
        {| stdout := print (json_dumps repr_finite (PyDict result));
           stderr := [];
           calls := tr;
           status := Exit 0 |}
    | (tr, Raise e) =>
        {| stdout := []; stderr := []; calls := tr; status := Uncaught e |}
    end.

(** The whole script, run as [python clip2_process.py args...] with
    [sys.argv = argv]. *)
Definition run (env : environment) (argv : list pystr) : process :=
  match module_level env with
  | (err, Ok HAS_CLIP) =>
      let p := main HAS_CLIP (lib env) argv in
      {| stdout := stdout p;
         stderr := err ++ stderr p;
         calls := calls p;
         status := status p |}
  | (err, Raise e) =>
      {| stdout := []; stderr := err; calls := []; status := Uncaught e |}
  end.

End Program.

(** ** Sample libraries and environments *)

(** The doubles nearest to 0.6 and 0.8. *)
Definition three_fifths : pyfloat := S754_finite false 5404319552844595 (-53).
Definition four_fifths : pyfloat := S754_finite false 7205759403792794 (-53).

(** A stand-in for the three libraries in which only opening the image can
    fail: a tensor is the list of its components, and the features of every
    image are [[0.6, 0.8]], of norm 1. *)
Definition sample_library (opening : pystr -> result unit) : library :=
  {| model := unit;
     processor := unit;
     image := unit;
     inputs := unit;
     tensor := list pyfloat;
     CLIPModel_from_pretrained := fun _ => Ok tt;
     CLIPProcessor_from_pretrained := fun _ => Ok tt;
     Image_open := opening;
     image_convert := fun _ _ => Ok tt;
     processor_call := fun _ _ _ => Ok tt;
     no_grad := Ok tt;
     get_image_features := fun _ _ => Ok [three_fifths; four_fifths];
     tensor_norm := fun _ _ _ => Ok [S754_finite false 1 0];
     tensor_truediv := fun t _ => Ok t;
     tensor_getitem := fun t _ => Ok t;
     tensor_tolist := fun t => Ok t |}.

(** Every path is an image. *)
Definition library_with_images : library := sample_library (fun _ => Ok tt).

(** No path exists: [Image.open] raises [FileNotFoundError]. *)
Definition library_without_files : library :=
  sample_library (fun p =>
    Raise (mk_exn FileNotFoundError
             (py "[Errno 2] No such file or directory: '" ++ p ++ py "'"))).

(** The user interrupts the run while the image is being opened. *)
Definition library_interrupted : library :=
  sample_library (fun _ => Raise (mk_exn KeyboardInterrupt [])).

(** A [float.__repr__] for the samples: the two components above print as
    [0.6] and [0.8], any other finite value as [1.0]. *)
Definition sample_repr (s : bool) (m : positive) (e : Z) : pystr :=
  if Pos.eqb m 5404319552844595 then py "0.6"
  else if Pos.eqb m 7205759403792794 then py "0.8"
  else py "1.0".

Definition environment_of (transformers : result unit) (L : library)
    : environment :=
  {| import_torch := Ok tt;
     import_PIL_Image := Ok tt;
     import_transformers := transformers;
     lib := L |}.

(** [python clip2_process.py photo.png] *)
Definition sample_argv : list pystr := [py "clip2_process.py"; py "photo.png"].


(** An installation of [transformers] that is present and broken: the import
    raises a [RuntimeError], not an [ImportError]. *)
Definition broken_transformers : result unit :=
  Raise (mk_exn RuntimeError
           (py "Failed to import transformers.models.clip.modeling_clip")).

(** A library whose model gives a zero feature vector: its norm is 0.0 and
    the division gives [nan] in every component. *)
Definition library_zero_features : library :=
  {| model := unit;
     processor := unit;
     image := unit;
     inputs := unit;
     tensor := list pyfloat;
     CLIPModel_from_pretrained := fun _ => Ok tt;
     CLIPProcessor_from_pretrained := fun _ => Ok tt;
     Image_open := fun _ => Ok tt;
     image_convert := fun _ _ => Ok tt;
     processor_call := fun _ _ _ => Ok tt;
     no_grad := Ok tt;
     get_image_features := fun _ _ => Ok [zero; zero];
     tensor_norm := fun _ _ _ => Ok [zero];
     tensor_truediv := fun _ _ => Ok [S754_nan; S754_nan];
     tensor_getitem := fun t _ => Ok t;
     tensor_tolist := fun t => Ok t |}.

(** What [process_image] gives when the [n]-th call of its [try] body is the
    first to raise, and raises [e]: the [n] calls made so far, and the
    error document or, past the handler, [e] itself. *)
Definition stopped (image_path : pystr) (n : nat) (e : exn) : io pydict :=
  (firstn n (success_calls image_path),
   if isinstance e Exception then Ok (error_document e) else Raise e).


(** The character of the caption at position [n]: position 0 tells the
    error document from the other two, position 5 the fallback document
    from the success document. *)
Definition caption_char (n : nat) (d : pydict) : N :=
  match d with
  | (_, PyStr c) :: _ => nth n c 0
  | _ => 0
  end.

(** * Properties *)

(** ** [process_image], branch by branch *)

Lemma process_image_fallback (L : library) (image_path : pystr) :
  process_image false L image_path = ([], Ok (fallback_document image_path)).
Proof. reflexivity. Qed.

Lemma process_image_returned (L : library) (image_path : pystr)
    (tr : list call) (d : pydict) :
  try_body L image_path = (tr, Ok d) ->
  process_image true L image_path = (tr, Ok d).
Proof. intros H. unfold process_image, try_except. simpl. now rewrite H. Qed.

Lemma process_image_caught (L : library) (image_path : pystr)
    (tr : list call) (e : exn) :
  try_body L image_path = (tr, Raise e) ->
  isinstance e Exception = true ->
  process_image true L image_path = (tr, Ok (error_document e)).
Proof.
  intros H He. unfold process_image, try_except. simpl.
  rewrite H, He. simpl. now rewrite app_nil_r.
Qed.

Lemma process_image_uncaught (L : library) (image_path : pystr)
    (tr : list call) (e : exn) :
  try_body L image_path = (tr, Raise e) ->
  isinstance e Exception = false ->
  process_image true L image_path = (tr, Raise e).
Proof.
  intros H He. unfold process_image, try_except. simpl. now rewrite H, He.
Qed.

(** Running a computation step by step. *)
Lemma bind_ext_ok {A B} (c : call) (a : A) (k : A -> io B) :
  bind (ext c (Ok a)) k = (c :: fst (k a), snd (k a)).
Proof. unfold bind, ext. now destruct (k a). Qed.

Lemma bind_ext_raise {A B} (c : call) (e : exn) (k : A -> io B) :
  bind (ext c (Raise e)) k = ([c], Raise e).
Proof. reflexivity. Qed.

Ltac step_call :=
  match goal with
  | |- context [bind (ext ?c ?r) ?k] =>
      let E := fresh "E" in
      destruct r eqn:E;
      [ rewrite (bind_ext_ok c _ k) | rewrite (bind_ext_raise c _ k) ];
      cbv beta
  end.

(** The [try] body ends in one of two ways: it returns the document built
    from the list [tolist] gave, or one of its calls raised. *)
Lemma try_body_returns (L : library) (image_path : pystr) (d : pydict) :
  snd (try_body L image_path) = Ok d ->
  exists embedding, d = success_document image_path embedding.
Proof.
  unfold try_body.
  repeat (step_call; cbn [fst snd]; try discriminate).
  unfold ret; cbn [snd].
  intros H. injection H as <-. eauto.
Qed.

(** X1.  When every call succeeds, the script loads the one checkpoint
    [openai/clip-vit-base-patch32], opens the path once and converts it to
    RGB, asks for the features once, without gradients, divides them by
    their norm along the last axis, and returns the first row as the
    embedding under the caption [Image from <path>]. *)
Lemma process_image_success (L : library) (image_path : pystr)
    (m : model L) (p : processor L) (i0 i1 : image L) (x : inputs L)
    (f n q r : tensor L) (embedding : list pyfloat) :
  CLIPModel_from_pretrained L (py "openai/clip-vit-base-patch32") = Ok m ->
  CLIPProcessor_from_pretrained L (py "openai/clip-vit-base-patch32") = Ok p ->
  Image_open L image_path = Ok i0 ->
  image_convert L i0 (py "RGB") = Ok i1 ->
  processor_call L p i1 (py "pt") = Ok x ->
  no_grad L = Ok tt ->
  get_image_features L m x = Ok f ->
  tensor_norm L f (-1) true = Ok n ->
  tensor_truediv L f n = Ok q ->
  tensor_getitem L q 0 = Ok r ->
  tensor_tolist L r = Ok embedding ->
  process_image true L image_path =
    (success_calls image_path,
     Ok [ (py "caption", PyStr (py "Image from " ++ image_path));
          (py "embedding", PyList (map PyFloat embedding)) ]).
Proof.
  intros H1 H2 H3 H4 H5 Hg H6 H7 H8 H9 H10.
  apply process_image_returned.
  unfold try_body, model_name.
  rewrite H1, bind_ext_ok; cbv beta.
  rewrite H2, bind_ext_ok; cbv beta.
  rewrite H3, bind_ext_ok; cbv beta.
  rewrite H4, bind_ext_ok; cbv beta.
  rewrite H5, bind_ext_ok; cbv beta.
  rewrite Hg, bind_ext_ok; cbv beta.
  rewrite H6, bind_ext_ok; cbv beta.
  rewrite H7, bind_ext_ok; cbv beta.
  rewrite H8, bind_ext_ok; cbv beta.
  rewrite H9, bind_ext_ok; cbv beta.
  rewrite H10, bind_ext_ok; cbv beta.
  reflexivity.
Qed.

(** ** The decoder reads what the encoder writes *)

(** *** Strings *)

Lemma hexdigit_printable (d : N) : d < 16 -> is_printable (hexdigit d) = true.
Proof.
  intros H. unfold is_printable, hexdigit.
  destruct (d <? 10); apply andb_true_iff; split; apply N.leb_le; lia.
Qed.

Lemma hex_value_hexdigit (d : N) : d < 16 -> hex_value (hexdigit d) = Some d.
Proof.
  intros H. unfold hex_value, hexdigit, is_digit.
  destruct (d <? 10) eqn:E.
  - apply N.ltb_lt in E.
    replace (48 <=? 48 + d) with true by (symmetry; apply N.leb_le; lia).
    replace (48 + d <=? 57) with true by (symmetry; apply N.leb_le; lia).
    cbn [andb]. f_equal. lia.
  - apply N.ltb_ge in E.
    replace (87 + d <=? 57) with false by (symmetry; apply N.leb_gt; lia).
    rewrite andb_false_r.
    replace (97 <=? 87 + d) with true by (symmetry; apply N.leb_le; lia).
    replace (87 + d <=? 102) with true by (symmetry; apply N.leb_le; lia).
    cbn [andb]. f_equal. lia.
Qed.

Lemma hex4_value_hex4 (n : N) :
  n < 65536 ->
  hex4_value (hexdigit (n / 4096 mod 16)) (hexdigit (n / 256 mod 16))
             (hexdigit (n / 16 mod 16)) (hexdigit (n mod 16)) = Some n.
Proof.
  intros H. unfold hex4_value.
  rewrite !hex_value_hexdigit by (apply N.mod_lt; discriminate).
  f_equal.
  assert (E1 : n = 16 * (n / 16) + n mod 16) by apply N.Div0.div_mod.
  assert (E2 : n / 16 = 16 * (n / 256) + (n / 16) mod 16).
  { rewrite (N.Div0.div_mod (n / 16) 16) at 1.
    now rewrite N.Div0.div_div. }
  assert (E3 : n / 256 = 16 * (n / 4096) + (n / 256) mod 16).
  { rewrite (N.Div0.div_mod (n / 256) 16) at 1.
    now rewrite N.Div0.div_div. }
  assert (E4 : (n / 4096) mod 16 = n / 4096).
  { apply N.mod_small. now apply N.Div0.div_lt_upper_bound. }
  rewrite E4. lia.
Qed.

Ltac bool_hyps :=
  repeat match goal with
  | H : (_ || _) = true |- _ => apply orb_true_iff in H; destruct H
  | H : (_ || _) = false |- _ => apply orb_false_iff in H; destruct H
  | H : (_ && _) = true |- _ => apply andb_true_iff in H; destruct H
  | H : (_ && _) = false |- _ => apply andb_false_iff in H; destruct H
  | H : (_ =? _) = true |- _ => apply N.eqb_eq in H
  | H : (_ =? _) = false |- _ => apply N.eqb_neq in H
  | H : (_ <=? _) = true |- _ => apply N.leb_le in H
  | H : (_ <=? _) = false |- _ => apply N.leb_gt in H
  | H : (_ <? _) = true |- _ => apply N.ltb_lt in H
  | H : (_ <? _) = false |- _ => apply N.ltb_ge in H
  end.

(** Replaces the comparisons of the goal that arithmetic settles. *)
Ltac settle_tests :=
  repeat match goal with
  | |- context [?a =? ?b] =>
      first [ replace (a =? b) with false by (symmetry; apply N.eqb_neq; lia)
            | replace (a =? b) with true by (symmetry; apply N.eqb_eq; lia) ]
  | |- context [?a <=? ?b] =>
      first [ replace (a <=? b) with false by (symmetry; apply N.leb_gt; lia)
            | replace (a <=? b) with true by (symmetry; apply N.leb_le; lia) ]
  | |- context [?a <? ?b] =>
      first [ replace (a <? b) with false by (symmetry; apply N.ltb_ge; lia)
            | replace (a <? b) with true by (symmetry; apply N.ltb_lt; lia) ]
  end.

Lemma surrogate_bound (base x : N) :
  N.log2 base = 15 -> N.lor base (N.land x 1023) < 65536.
Proof.
  intros Hb. apply N.log2_lt_cancel.
  rewrite N.log2_lor, Hb. change (N.log2 65536) with 16.
  pose proof (N.log2_land x 1023) as Hl.
  change (N.log2 1023) with 9 in Hl. lia.
Qed.

Lemma scan_units_u_escape (n : N) (tail : pystr) :
  n < 65536 ->
  scan_units (u_escape n ++ tail) =
    match scan_units tail with
    | Some (us, rest) => Some ((true, n) :: us, rest)
    | None => None
    end.
Proof.
  intros H. unfold u_escape, hex4. cbn [app].
  change (scan_units (92 :: 117 :: ?a :: ?b :: ?c :: ?d :: tail))
    with (match hex4_value a b c d with
          | Some u =>
              match scan_units tail with
              | Some (us, rest) => Some ((true, u) :: us, rest)
              | None => None
              end
          | None => None
          end).
  now rewrite hex4_value_hex4.
Qed.

(** One character: the decoder consumes exactly what the encoder wrote for
    it. *)
Lemma scan_units_char (c : N) (tail : pystr) :
  scan_units (escape_char c ++ tail) =
    match scan_units tail with
    | Some (us, rest) => Some (units_of_char c ++ us, rest)
    | None => None
    end.
Proof.
  unfold escape_char, units_of_char, is_printable.
  destruct (c =? 34) eqn:E1; [apply N.eqb_eq in E1; subst; reflexivity |].
  destruct (c =? 92) eqn:E2; [apply N.eqb_eq in E2; subst; reflexivity |].
  destruct (c =? 10) eqn:E3; [apply N.eqb_eq in E3; subst; reflexivity |].
  destruct (c =? 13) eqn:E4; [apply N.eqb_eq in E4; subst; reflexivity |].
  destruct (c =? 9) eqn:E5; [apply N.eqb_eq in E5; subst; reflexivity |].
  destruct (c =? 8) eqn:E6; [apply N.eqb_eq in E6; subst; reflexivity |].
  destruct (c =? 12) eqn:E7; [apply N.eqb_eq in E7; subst; reflexivity |].
  cbn [orb].
  destruct ((32 <=? c) && (c <=? 126)) eqn:E8.
  - cbn [app scan_units]. rewrite E1, E2.
    bool_hyps. settle_tests.
    destruct (scan_units tail) as [[us rest] |]; reflexivity.
  - destruct (c <? 65536) eqn:E9.
    + apply N.ltb_lt in E9. rewrite scan_units_u_escape by assumption.
      destruct (scan_units tail) as [[us rest] |]; reflexivity.
    + rewrite <- app_assoc.
      rewrite !scan_units_u_escape by (now apply surrogate_bound).
      destruct (scan_units tail) as [[us rest] |]; reflexivity.
Qed.

Lemma scan_units_encoded (s rest : pystr) :
  scan_units (flat_map escape_char s ++ 34 :: rest) =
    Some (flat_map units_of_char s, rest).
Proof.
  induction s as [| c s IH]; [reflexivity |].
  cbn [flat_map]. rewrite <- app_assoc, scan_units_char, IH. reflexivity.
Qed.

Lemma scan_string_encoded (s rest : pystr) :
  scan_string (flat_map escape_char s ++ 34 :: rest) = Some (decoded s, rest).
Proof. unfold scan_string. now rewrite scan_units_encoded. Qed.

Lemma u_escape_printable (n : N) : forallb is_printable (u_escape n) = true.
Proof.
  unfold u_escape, hex4. cbn [forallb].
  rewrite !hexdigit_printable by (apply N.mod_lt; discriminate).
  reflexivity.
Qed.

Lemma escape_char_printable (c : N) :
  forallb is_printable (escape_char c) = true.
Proof.
  unfold escape_char.
  repeat match goal with
         | |- context [if ?b then _ else _] =>
             lazymatch b with
             | (_ =? _) => destruct b; [reflexivity |]
             end
         end.
  destruct ((32 <=? c) && (c <=? 126)) eqn:E.
  - cbn [forallb]. unfold is_printable. now rewrite E.
  - destruct (c <? 65536).
    + apply u_escape_printable.
    + rewrite forallb_app, !u_escape_printable. reflexivity.
Qed.

Lemma encode_basestring_ascii_printable (s : pystr) :
  forallb is_printable (encode_basestring_ascii s) = true.
Proof.
  unfold encode_basestring_ascii. cbn [forallb].
  rewrite forallb_app. cbn [forallb andb is_printable].
  replace (is_printable 34) with true by reflexivity.
  rewrite andb_true_r. cbn [andb].
  induction s as [| c s IH]; [reflexivity |].
  cbn [flat_map]. now rewrite forallb_app, escape_char_printable, IH.
Qed.

(** *** Reading a string back *)

Lemma lor_disjoint (a b : N) : N.land a b = 0 -> N.lor a b = a + b.
Proof.
  intros H. rewrite <- (N.lxor_lor a b H). symmetry.
  now apply N.add_nocarry_lxor.
Qed.

Lemma surrogate_value (base x : N) :
  N.land base 1023 = 0 ->
  N.lor base (N.land x 1023) = base + x mod 1024.
Proof.
  intros H. rewrite lor_disjoint.
  - f_equal. apply (N.land_ones x 10).
  - now rewrite (N.land_comm x), N.land_assoc, H.
Qed.

(** The pair of surrogates the encoder writes for a character above the
    basic plane is the pair the decoder joins into that character. *)
Lemma surrogate_pair_joined (c : N) :
  65536 <= c -> c < 1114112 ->
  is_high_surrogate
    (N.lor 55296 (N.land (N.shiftr (c - 65536) 10) 1023)) = true
  /\ is_low_surrogate (N.lor 56320 (N.land (c - 65536) 1023)) = true
  /\ 65536 +
     N.lor (N.shiftl
              (N.lor 55296 (N.land (N.shiftr (c - 65536) 10) 1023) - 55296)
              10)
           (N.lor 56320 (N.land (c - 65536) 1023) - 56320) = c.
Proof.
  intros Hlo Hhi.
  rewrite !surrogate_value by reflexivity.
  set (n := c - 65536).
  assert (Hn : n < 1048576) by (unfold n; lia).
  rewrite N.shiftr_div_pow2. change (2 ^ 10) with 1024.
  assert (Hq : n / 1024 < 1024)
    by (now apply N.Div0.div_lt_upper_bound).
  rewrite (N.mod_small (n / 1024) 1024) by assumption.
  pose proof (N.mod_lt n 1024 ltac:(discriminate)) as Hr.
  pose proof (N.Div0.div_mod n 1024) as Hd.
  rewrite (N.add_comm 55296 (n / 1024)), (N.add_comm 56320 (n mod 1024)).
  rewrite !N.add_sub.
  assert (Hc : c = 65536 + n) by (unfold n; lia).
  clearbody n.
  set (q := n / 1024) in *. set (r := n mod 1024) in *. clearbody q r.
  unfold is_high_surrogate, is_low_surrogate.
  repeat split.
  - apply andb_true_iff; split; apply N.leb_le; lia.
  - apply andb_true_iff; split; apply N.leb_le; lia.
  - rewrite lor_disjoint.
    + rewrite N.shiftl_mul_pow2. change (2 ^ 10) with 1024. lia.
    + replace r with (N.land r (N.ones 10))
        by (rewrite N.land_ones; now apply N.mod_small).
      rewrite (N.land_comm r), N.land_assoc.
      replace (N.land (N.shiftl q 10) (N.ones 10)) with 0; [reflexivity |].
      symmetry. rewrite N.land_ones, N.shiftl_mul_pow2.
      apply N.Div0.mod_mul.
Qed.

Lemma combine_not_high (u : N) (rest : list (bool * N)) :
  is_high_surrogate u = false ->
  combine_surrogates ((true, u) :: rest) = u :: combine_surrogates rest.
Proof.
  intros H. destruct rest as [| [[|] lo] rest']; cbn [combine_surrogates];
    try reflexivity.
  now rewrite H.
Qed.

(** Text made of Unicode scalar values comes back as it was written. *)
Lemma decoded_scalar (s : pystr) :
  forallb is_scalar s = true -> decoded s = s.
Proof.
  unfold decoded. induction s as [| c s IH]; [reflexivity |].
  cbn [forallb flat_map]. intros H. apply andb_true_iff in H as [Hc Hs].
  specialize (IH Hs). unfold units_of_char at 1.
  destruct ((c =? 34) || (c =? 92) || (c =? 10) || (c =? 13) || (c =? 9)
            || (c =? 8) || (c =? 12) || is_printable c).
  - cbn [app combine_surrogates]. now rewrite IH.
  - destruct (c <? 65536) eqn:E.
    + cbn [app]. rewrite combine_not_high; [now rewrite IH |].
      unfold is_scalar in Hc. unfold is_high_surrogate.
      bool_hyps; apply andb_false_iff.
      * left. apply N.leb_gt. lia.
      * right. apply N.leb_gt. lia.
    + cbn [app combine_surrogates].
      unfold is_scalar in Hc. bool_hyps; [lia |].
      destruct (@surrogate_pair_joined c) as [H1 [H2 H3]]; [lia | lia |].
      now rewrite H1, H2, H3, IH.
Qed.

(** *** Numbers *)

Lemma span_split (p : N -> bool) (s a b : pystr) :
  span p s = (a, b) -> s = a ++ b /\ forallb p a = true.
Proof.
  revert a b. induction s as [| c s IH]; intros a b H; cbn [span] in H.
  - injection H as <- <-. now split.
  - destruct (p c) eqn:E.
    + destruct (span p s) as [a' b'] eqn:E'. injection H as <- <-.
      destruct (IH a' b' eq_refl) as [-> Hf]. split; [reflexivity |].
      cbn [forallb]. now rewrite E, Hf.
    + injection H as <- <-. now split.
Qed.

(** A token followed by a character that cannot continue it is read
    whole. *)
Lemma span_exact (p : N -> bool) (a rest : pystr) :
  forallb p a = true ->
  match rest with [] => True | c :: _ => p c = false end ->
  span p (a ++ rest) = (a, rest).
Proof.
  intros Ha Hr. induction a as [| c a IH]; cbn [app span].
  - destruct rest as [| c r]; [reflexivity |]. cbn [span]. now rewrite Hr.
  - cbn [forallb] in Ha. apply andb_true_iff in Ha as [Hc Ha].
    now rewrite Hc, (IH Ha).
Qed.

Lemma is_digit_num_char (c : N) : is_digit c = true -> is_num_char c = true.
Proof. intros H. unfold is_num_char. now rewrite H. Qed.

Lemma digits_num_chars (a : pystr) :
  forallb is_digit a = true -> forallb is_num_char a = true.
Proof.
  induction a as [| c a IH]; [reflexivity |]. cbn [forallb].
  intros H. apply andb_true_iff in H as [Hc Ha].
  now rewrite (is_digit_num_char _ Hc), (IH Ha).
Qed.

Lemma takes_prefix_refl (s : pystr) : takes_prefix s s.
Proof. now exists []. Qed.

Lemma takes_prefix_cons (c : N) (s r : pystr) :
  is_num_char c = true -> takes_prefix s r -> takes_prefix (c :: s) r.
Proof.
  intros Hc [a [-> Ha]]. exists (c :: a). split; [reflexivity |].
  cbn [forallb]. now rewrite Hc, Ha.
Qed.

Lemma takes_prefix_trans (s r t : pystr) :
  takes_prefix s r -> takes_prefix r t -> takes_prefix s t.
Proof.
  intros [a [-> Ha]] [b [-> Hb]]. exists (a ++ b). split.
  - now rewrite app_assoc.
  - now rewrite forallb_app, Ha, Hb.
Qed.

Lemma span_digits_prefix (s : pystr) : takes_prefix s (snd (span is_digit s)).
Proof.
  destruct (span is_digit s) as [a b] eqn:E.
  destruct (span_split _ _ E) as [-> Ha].
  exists a. split; [reflexivity | now apply digits_num_chars].
Qed.

Lemma check_digits1_prefix (s r : pystr) :
  check_digits1 s = Some r ->
  takes_prefix s r /\ exists c t, s = c :: t /\ is_digit c = true.
Proof.
  destruct s as [| c t]; [discriminate |]. cbn [check_digits1].
  destruct (is_digit c) eqn:E; [| discriminate].
  intros H. injection H as <-. split.
  - apply takes_prefix_cons; [now apply is_digit_num_char |].
    apply span_digits_prefix.
  - now exists c, t.
Qed.

Lemma check_int_prefix (s r : pystr) :
  check_int s = Some r ->
  takes_prefix s r /\ exists c t, s = c :: t /\ is_digit c = true.
Proof.
  destruct s as [| c t]; [discriminate |]. cbn [check_int].
  destruct (c =? 48) eqn:E.
  - apply N.eqb_eq in E. subst c. intros H. injection H as <-. split.
    + apply takes_prefix_cons; [reflexivity | apply takes_prefix_refl].
    + now exists 48, t.
  - apply check_digits1_prefix.
Qed.

Lemma check_frac_prefix (s r : pystr) :
  check_frac s = Some r -> takes_prefix s r.
Proof.
  destruct s as [| c t]; cbn [check_frac].
  - intros H. injection H as <-. apply takes_prefix_refl.
  - destruct (c =? 46) eqn:E.
    + apply N.eqb_eq in E. subst c. intros H.
      apply takes_prefix_cons; [reflexivity |].
      now apply check_digits1_prefix.
    + intros H. injection H as <-. apply takes_prefix_refl.
Qed.

Lemma check_exp_prefix (s r : pystr) :
  check_exp s = Some r -> takes_prefix s r.
Proof.
  destruct s as [| c t]; cbn [check_exp].
  - intros H. injection H as <-. apply takes_prefix_refl.
  - destruct ((c =? 101) || (c =? 69)) eqn:E.
    + assert (Hc : is_num_char c = true).
      { unfold is_num_char. bool_hyps; subst; reflexivity. }
      destruct t as [| sg t']; [discriminate |].
      destruct ((sg =? 43) || (sg =? 45)) eqn:E'.
      * intros H. apply takes_prefix_cons; [assumption |].
        apply takes_prefix_cons.
        { unfold is_num_char. bool_hyps; subst; reflexivity. }
        now apply check_digits1_prefix.
      * intros H. apply takes_prefix_cons; [assumption |].
        now apply check_digits1_prefix.
    + intros H. injection H as <-. apply takes_prefix_refl.
Qed.

(** A number is not empty, starts with a minus sign or a digit, and holds
    number characters only. *)
Lemma is_json_number_chars (tok : pystr) :
  is_json_number tok = true ->
  forallb is_num_char tok = true
  /\ exists c t, tok = c :: t /\ (c = 45 \/ is_digit c = true).
Proof.
  unfold is_json_number.
  destruct (check_int (drop_minus tok)) as [s1 |] eqn:E1; [| discriminate].
  destruct (check_frac s1) as [s2 |] eqn:E2; [| discriminate].
  destruct (check_exp s2) as [[| x s3] |] eqn:E3; try discriminate.
  intros _.
  destruct (check_int_prefix _ E1) as [P1 [c [t [Hd Hc]]]].
  pose proof (takes_prefix_trans P1
                (takes_prefix_trans (check_frac_prefix _ E2)
                                    (check_exp_prefix _ E3))) as [a [Ha Hf]].
  rewrite app_nil_r in Ha.
  destruct tok as [| c0 t0]; [discriminate Hd |].
  cbn [drop_minus] in Ha, Hd.
  destruct (c0 =? 45) eqn:E0.
  - apply N.eqb_eq in E0. subst c0. split.
    + cbn [forallb]. now rewrite Ha, Hf.
    + exists 45, t0. auto.
  - split.
    + now rewrite Ha.
    + exists c0, t0. split; [reflexivity |]. right.
      injection Hd as -> _. exact Hc.
Qed.

(** *** Values *)

Lemma join_two (sep a b : pystr) (rest : list pystr) :
  join sep (a :: b :: rest) = a ++ sep ++ join sep (b :: rest).
Proof. reflexivity. Qed.

Lemma parse_value_space (allow : bool) (f : nat) (s : pystr) :
  parse_value allow f (32 :: s) = parse_value allow f s.
Proof. destruct f; reflexivity. Qed.

Lemma parse_elements_space (allow : bool) (f : nat) (s : pystr) :
  parse_elements allow f (32 :: s) = parse_elements allow f s.
Proof. destruct f as [| [| f]]; reflexivity. Qed.

Lemma parse_members_space (allow : bool) (f : nat) (s : pystr) :
  parse_members allow f (32 :: s) = parse_members allow f s.
Proof. destruct f; reflexivity. Qed.

Lemma parse_value_string (allow : bool) (f : nat) (s rest : pystr) :
  parse_value allow (S f) (encode_basestring_ascii s ++ rest) =
    Some (JString (decoded s), rest).
Proof.
  unfold encode_basestring_ascii. cbn [app]. rewrite <- app_assoc. cbn [app].
  change (parse_value allow (S f) (34 :: ?x))
    with (match scan_string x with
          | Some (str, r) => Some (JString str, r)
          | None => None
          end).
  now rewrite scan_string_encoded.
Qed.

(** A value that starts like a number or a constant is an atom. *)
Lemma parse_value_atom (allow : bool) (f : nat) (c : N) (r : pystr) :
  is_ws c = false -> c <> 34 -> c <> 91 -> c <> 123 ->
  parse_value allow (S f) (c :: r) = parse_atom allow (c :: r).
Proof.
  intros Hw H1 H2 H3. cbn [parse_value skip_ws]. rewrite Hw.
  settle_tests. reflexivity.
Qed.

Lemma parse_value_number (allow : bool) (f : nat) (tok rest : pystr) :
  is_json_number tok = true ->
  match rest with [] => True | c :: _ => is_num_char c = false end ->
  parse_value allow (S f) (tok ++ rest) = Some (JNumber tok, rest).
Proof.
  intros Hn Hr.
  destruct (is_json_number_chars _ Hn) as [Hf [c [t [-> Hc]]]].
  assert (Hb : c = 45 \/ (48 <= c /\ c <= 57)).
  { destruct Hc as [-> | Hc]; [now left | right].
    unfold is_digit in Hc. now bool_hyps. }
  cbn [app]. rewrite parse_value_atom.
  - unfold parse_atom.
    change (py "true") with [116; 114; 117; 101].
    change (py "false") with [102; 97; 108; 115; 101].
    change (py "null") with [110; 117; 108; 108].
    cbn [strip_prefix]. settle_tests.
    change (c :: t ++ rest) with ((c :: t) ++ rest).
    now rewrite (span_exact is_num_char _ _ Hf Hr), Hn.
  - unfold is_ws. settle_tests. reflexivity.
  - lia.
  - lia.
  - lia.
Qed.

Section Floats.

Variable repr_finite : bool -> positive -> Z -> pystr.

(** What [float.__repr__] is known to give for a finite double: digits with
    a decimal point or an exponent, after an optional sign; in any case a
    JSON number. *)
Hypothesis repr_finite_number :
  forall s m e, is_json_number (repr_finite s m e) = true.

Lemma parse_value_float (allow : bool) (f : nat) (x : pyfloat)
    (rest : pystr) :
  readable allow x = true ->
  match rest with [] => True | c :: _ => is_num_char c = false end ->
  parse_value allow (S f) (floatstr repr_finite x ++ rest) =
    Some (float_json repr_finite x, rest).
Proof.
  unfold readable. intros Hx Hr.
  destruct x as [[|] | [|] | | s m e]; cbn [is_finite_float] in Hx;
    try (rewrite orb_false_r in Hx; subst allow; reflexivity).
  - now apply parse_value_number.
  - now apply parse_value_number.
  - apply parse_value_number; [apply repr_finite_number | exact Hr].
Qed.

(** The text of a float starts with a character that is neither white space
    nor a closing bracket, and is printable. *)
Lemma floatstr_head (x : pyfloat) :
  exists c t, floatstr repr_finite x = c :: t
              /\ is_ws c = false /\ c <> 93.
Proof.
  destruct x as [[|] | [|] | | s m e];
    try (cbn; eexists _, _; repeat split; discriminate).
  cbn [floatstr float_repr].
  destruct (is_json_number_chars _ (repr_finite_number s m e))
    as [_ [c [t [-> Hc]]]].
  exists c, t. split; [reflexivity |].
  assert (Hb : c = 45 \/ (48 <= c /\ c <= 57)).
  { destruct Hc as [-> | Hc]; [now left | right].
    unfold is_digit in Hc. now bool_hyps. }
  split; [unfold is_ws; settle_tests; reflexivity | lia].
Qed.

Lemma num_char_printable (c : N) :
  is_num_char c = true -> is_printable c = true.
Proof.
  unfold is_num_char, is_digit, is_printable. intros H.
  bool_hyps; subst; try reflexivity.
  apply andb_true_iff; split; apply N.leb_le; lia.
Qed.

Lemma floatstr_printable (x : pyfloat) :
  forallb is_printable (floatstr repr_finite x) = true.
Proof.
  destruct x as [[|] | [|] | | s m e]; try reflexivity.
  cbn [floatstr float_repr].
  destruct (is_json_number_chars _ (repr_finite_number s m e)) as [Hf _].
  apply forallb_forall. intros c Hc. apply num_char_printable.
  now apply (proj1 (forallb_forall _ _) Hf).
Qed.

Lemma parse_elements_floats (allow : bool) (l : list pyfloat) :
  forall (f : nat) (rest : pystr),
    l <> [] ->
    forallb (readable allow) l = true ->
    (List.length l <= f)%nat ->
    parse_elements allow (S f) (float_items repr_finite l ++ 93 :: rest) =
      Some (map (float_json repr_finite) l, rest).
Proof.
  induction l as [| x l IH]; intros f rest Hne Hr Hf; [easy |].
  cbn [forallb] in Hr. apply andb_true_iff in Hr as [Hx Hl].
  cbn [List.length] in Hf. destruct f as [| f]; [lia |].
  change (parse_elements allow (S (S f)) ?s)
    with (match parse_value allow (S f) s with
          | Some (v, r) =>
              match skip_ws r with
              | c :: r' =>
                  if c =? 44 then
                    match parse_elements allow (S f) r' with
                    | Some (l, rest) => Some (v :: l, rest)
                    | None => None
                    end
                  else if c =? 93 then Some ([v], r')
                  else None
              | [] => None
              end
          | None => None
          end).
  destruct l as [| y l].
  - unfold float_items. cbn [map join].
    rewrite parse_value_float; [reflexivity | exact Hx | reflexivity].
  - unfold float_items. cbn [map join]. rewrite <- app_assoc.
    rewrite parse_value_float; [| exact Hx | reflexivity].
    change (py ", ") with [44; 32]. cbn [app skip_ws is_ws N.eqb Pos.eqb orb].
    rewrite parse_elements_space.
    change (join [44; 32] (floatstr repr_finite y :: map (floatstr repr_finite) l))
      with (float_items repr_finite (y :: l)).
    rewrite IH; [reflexivity | discriminate | exact Hl | cbn [List.length] in *; lia].
Qed.

Lemma parse_value_array (allow : bool) (f : nat) (c : N) (r : pystr) :
  is_ws c = false -> c <> 93 ->
  parse_value allow (S f) (91 :: c :: r) =
    match parse_elements allow f (c :: r) with
    | Some (l, rest) => Some (JArray l, rest)
    | None => None
    end.
Proof.
  intros Hw Hb.
  change (parse_value allow (S f) (91 :: c :: r))
    with (match skip_ws (c :: r) with
          | [] => None
          | c' :: r' =>
              if c' =? 93 then Some (JArray [], r')
              else
                match parse_elements allow f (c :: r) with
                | Some (l, rest) => Some (JArray l, rest)
                | None => None
                end
          end).
  cbn [skip_ws]. rewrite Hw.
  now replace (c =? 93) with false by (symmetry; now apply N.eqb_neq).
Qed.

Lemma parse_value_float_list (allow : bool) (l : list pyfloat) (f : nat)
    (rest : pystr) :
  forallb (readable allow) l = true ->
  (List.length l < f)%nat ->
  parse_value allow (S f) (91 :: float_items repr_finite l ++ 93 :: rest) =
    Some (JArray (map (float_json repr_finite) l), rest).
Proof.
  intros Hr Hf. destruct l as [| x l]; [reflexivity |].
  destruct f as [| f]; [lia |].
  pose proof (@parse_elements_floats allow (x :: l) f rest) as He.
  remember (float_items repr_finite (x :: l) ++ 93 :: rest) as text eqn:Et.
  assert (Hh : exists c t, text = c :: t /\ is_ws c = false /\ c <> 93).
  { destruct (floatstr_head x) as [c [t [Hx [Hw Hc]]]].
    subst text. unfold float_items.
    destruct l; cbn [map join]; rewrite Hx; cbn [app]; eauto. }
  destruct Hh as [c [t [Hc [Hw Hb]]]].
  rewrite Hc in *.
  rewrite (parse_value_array _ _ _ Hw Hb).
  rewrite He; [reflexivity | discriminate | exact Hr |].
  cbn [List.length] in *. lia.
Qed.

Lemma float_items_length (l : list pyfloat) :
  (List.length l <= List.length (float_items repr_finite l))%nat.
Proof.
  induction l as [| x l IH]; [apply Nat.le_refl |].
  destruct (floatstr_head x) as [c [t [Hx _]]].
  unfold float_items in *.
  destruct l as [| y l]; cbn [map] in *.
  - cbn [join]. rewrite Hx. cbn [List.length]. lia.
  - rewrite join_two, Hx. cbn [app List.length] in *.
    rewrite !length_app. lia.
Qed.

Lemma float_items_printable (l : list pyfloat) :
  forallb is_printable (float_items repr_finite l) = true.
Proof.
  induction l as [| x l IH]; [reflexivity |].
  unfold float_items in *.
  destruct l as [| y l]; cbn [map] in *.
  - apply floatstr_printable.
  - now rewrite join_two, !forallb_app, floatstr_printable, IH.
Qed.

(** The text of a dict with a string under [k1] and a list of floats under
    [k2]. *)
Lemma json_dumps_document (k1 c k2 : pystr) (l : list pyfloat) :
  json_dumps repr_finite
    (PyDict [(k1, PyStr c); (k2, PyList (map PyFloat l))]) =
  123 :: encode_basestring_ascii k1 ++ 58 :: 32 ::
         encode_basestring_ascii c ++ 44 :: 32 ::
         encode_basestring_ascii k2 ++ 58 :: 32 ::
         91 :: float_items repr_finite l ++ [93; 125].
Proof.
  cbn [json_dumps map join]. rewrite map_map. cbn [json_dumps].
  change (py ", ") with [44; 32]. change (py ": ") with [58; 32].
  unfold float_items. change (py ", ") with [44; 32].
  repeat (rewrite <- app_assoc; cbn [app]). reflexivity.
Qed.

(** One member whose value is followed by a comma or by the closing
    brace. *)
Lemma parse_members_step (allow : bool) (f : nat) (k rest : pystr) :
  parse_members allow (S f) (encode_basestring_ascii k ++ 58 :: 32 :: rest) =
    match parse_value allow f rest with
    | Some (v, r3) =>
        match skip_ws r3 with
        | c3 :: r4 =>
            if c3 =? 44 then
              match parse_members allow f r4 with
              | Some (l, rest') => Some ((decoded k, v) :: l, rest')
              | None => None
              end
            else if c3 =? 125 then Some ([(decoded k, v)], r4)
            else None
        | [] => None
        end
    | None => None
    end.
Proof.
  unfold encode_basestring_ascii. cbn [app]. rewrite <- app_assoc.
  cbn [app parse_members skip_ws is_ws N.eqb Pos.eqb orb].
  rewrite scan_string_encoded.
  cbn [skip_ws is_ws N.eqb Pos.eqb orb].
  now rewrite parse_value_space.
Qed.

Lemma parse_value_object (allow : bool) (f : nat) (k r : pystr) :
  parse_value allow (S f) (123 :: encode_basestring_ascii k ++ r) =
    match parse_members allow f (encode_basestring_ascii k ++ r) with
    | Some (m, rest) => Some (JObject m, rest)
    | None => None
    end.
Proof. reflexivity. Qed.

Lemma parse_value_document (allow : bool) (k1 c k2 : pystr)
    (l : list pyfloat) (f : nat) :
  forallb (readable allow) l = true ->
  (List.length l + 5 <= f)%nat ->
  parse_value allow f
    (json_dumps repr_finite
       (PyDict [(k1, PyStr c); (k2, PyList (map PyFloat l))])) =
    Some (JObject [ (decoded k1, JString (decoded c));
                    (decoded k2, JArray (map (float_json repr_finite) l)) ],
          []).
Proof.
  intros Hr Hf. rewrite json_dumps_document.
  do 4 (destruct f as [| f]; [lia |]).
  rewrite parse_value_object.
  rewrite parse_members_step, parse_value_string.
  cbn [skip_ws is_ws N.eqb Pos.eqb orb].
  rewrite parse_members_space, parse_members_step.
  rewrite parse_value_float_list; [reflexivity | exact Hr | lia].
Qed.

Lemma json_dumps_document_printable (k1 c k2 : pystr) (l : list pyfloat) :
  forallb is_printable
    (json_dumps repr_finite
       (PyDict [(k1, PyStr c); (k2, PyList (map PyFloat l))])) = true.
Proof.
  rewrite json_dumps_document. cbn [forallb].
  repeat (rewrite forallb_app; cbn [forallb]).
  rewrite !encode_basestring_ascii_printable, float_items_printable.
  reflexivity.
Qed.

(** The decoder reads the document: an object with the two keys, the
    caption as the encoder's escapes decode, and one number (or constant)
    for each float. *)
Lemma json_loads_document (allow : bool) (k1 c k2 : pystr)
    (l : list pyfloat) :
  forallb (readable allow) l = true ->
  json_loads allow
    (json_dumps repr_finite
       (PyDict [(k1, PyStr c); (k2, PyList (map PyFloat l))])) =
    Some (JObject [ (decoded k1, JString (decoded c));
                    (decoded k2, JArray (map (float_json repr_finite) l)) ]).
Proof.
  intros Hr. unfold json_loads.
  rewrite parse_value_document; [reflexivity | exact Hr |].
  rewrite json_dumps_document.
  repeat first [rewrite length_app | progress cbn [List.length]].
  pose proof (float_items_length l). lia.
Qed.

End Floats.

(** ** The block under [__main__] and the whole script *)

Section Runs.

Variable repr_finite : bool -> positive -> Z -> pystr.

Lemma main_usage (HAS_CLIP : bool) (L : library) (argv : list pystr) :
  (List.length argv < 2)%nat ->
  main repr_finite HAS_CLIP L argv =
    {| stdout := [];
       stderr := print (json_dumps repr_finite (PyDict usage));
       calls := [];
       status := Exit 1 |}.
Proof.
  intros H. unfold main.
  now replace (List.length argv <? 2)%nat with true
    by (symmetry; now apply Nat.ltb_lt).
Qed.

Lemma main_returned (HAS_CLIP : bool) (L : library)
    (script image_path : pystr) (more : list pystr)
    (tr : list call) (d : pydict) :
  process_image HAS_CLIP L image_path = (tr, Ok d) ->
  main repr_finite HAS_CLIP L (script :: image_path :: more) =
    {| stdout := print (json_dumps repr_finite (PyDict d));
       stderr := [];
       calls := tr;
       status := Exit 0 |}.
Proof. intros H. unfold main. cbn [List.length Nat.ltb Nat.leb nth]. now rewrite H. Qed.

Lemma main_raised (HAS_CLIP : bool) (L : library)
    (script image_path : pystr) (more : list pystr)
    (tr : list call) (e : exn) :
  process_image HAS_CLIP L image_path = (tr, Raise e) ->
  main repr_finite HAS_CLIP L (script :: image_path :: more) =
    {| stdout := []; stderr := []; calls := tr; status := Uncaught e |}.
Proof. intros H. unfold main. cbn [List.length Nat.ltb Nat.leb nth]. now rewrite H. Qed.

Lemma run_loaded (env : environment) (argv : list pystr) (w : pystr)
    (HAS_CLIP : bool) :
  module_level env = (w, Ok HAS_CLIP) ->
  run repr_finite env argv =
    {| stdout := stdout (main repr_finite HAS_CLIP (lib env) argv);
       stderr := w ++ stderr (main repr_finite HAS_CLIP (lib env) argv);
       calls := calls (main repr_finite HAS_CLIP (lib env) argv);
       status := status (main repr_finite HAS_CLIP (lib env) argv) |}.
Proof. intros H. unfold run. now rewrite H. Qed.

Lemma run_not_loaded (env : environment) (argv : list pystr) (w : pystr)
    (e : exn) :
  module_level env = (w, Raise e) ->
  run repr_finite env argv =
    {| stdout := []; stderr := w; calls := []; status := Uncaught e |}.
Proof. intros H. unfold run. now rewrite H. Qed.

(** [HAS_CLIP] is [False] exactly when the two unconditional imports
    succeeded and the guarded one raised an [ImportError]; the warning is
    then the only thing written. *)
Lemma module_level_fallback (env : environment) (w : pystr) :
  module_level env = (w, Ok false) ->
  w = print warning
  /\ (exists u, import_torch env = Ok u)
  /\ (exists u, import_PIL_Image env = Ok u)
  /\ exists e, import_transformers env = Raise e
               /\ isinstance e ImportError = true.
Proof.
  unfold module_level.
  destruct (import_torch env) as [u1 |]; [| discriminate].
  destruct (import_PIL_Image env) as [u2 |]; [| discriminate].
  destruct (import_transformers env) as [u3 | e]; [discriminate |].
  destruct (isinstance e ImportError) eqn:E; [| discriminate].
  intros H. injection H as <-. eauto 10.
Qed.

(** What [process_image] returns is one of its three documents. *)
Lemma process_image_cases (HAS_CLIP : bool) (L : library)
    (image_path : pystr) (tr : list call) (d : pydict) :
  process_image HAS_CLIP L image_path = (tr, Ok d) ->
  (HAS_CLIP = false /\ d = fallback_document image_path)
  \/ (HAS_CLIP = true /\ exists e, d = error_document e)
  \/ (HAS_CLIP = true /\ exists l, d = success_document image_path l).
Proof.
  destruct HAS_CLIP.
  - destruct (try_body L image_path) as [tr' [d' | e]] eqn:E.
    + rewrite (process_image_returned _ _ E). intros H. injection H as <- <-.
      right; right. split; [reflexivity |].
      apply (@try_body_returns L image_path). now rewrite E.
    + destruct (isinstance e Exception) eqn:He.
      * rewrite (process_image_caught _ _ E He). intros H.
        injection H as <- <-. right; left. eauto.
      * rewrite (process_image_uncaught _ _ E He). discriminate.
  - rewrite process_image_fallback. intros H. injection H as <- <-. now left.
Qed.

Lemma zero_embedding_floats :
  zero_embedding = PyList (map PyFloat (repeat zero 512)).
Proof. unfold zero_embedding. now rewrite map_repeat. Qed.

(** In each case: a string under [caption], floats under [embedding]. *)
Lemma process_image_document (HAS_CLIP : bool) (L : library)
    (image_path : pystr) (tr : list call) (d : pydict) :
  process_image HAS_CLIP L image_path = (tr, Ok d) ->
  exists c l,
    d = [ (py "caption", PyStr c); (py "embedding", PyList (map PyFloat l)) ].
Proof.
  intros H.
  destruct (process_image_cases _ _ _ H)
    as [[_ ->] | [[_ [e ->]] | [_ [l ->]]]].
  - unfold fallback_document. rewrite zero_embedding_floats. eauto.
  - unfold error_document. rewrite zero_embedding_floats. eauto.
  - unfold success_document. eauto.
Qed.

(** The fallback document differs from the other two at the character after
    [Image], a colon. *)
Lemma fallback_text_distinct (HAS_CLIP : bool) (L : library)
    (image_path path : pystr) (tr : list call) (d : pydict) :
  process_image HAS_CLIP L image_path = (tr, Ok d) ->
  print (json_dumps repr_finite (PyDict d)) =
    print (json_dumps repr_finite (PyDict (fallback_document path))) ->
  HAS_CLIP = false.
Proof.
  intros H Heq.
  apply (f_equal (fun s => nth 18 s 0)) in Heq.
  destruct (process_image_cases _ _ _ H)
    as [[-> _] | [[_ [e ->]] | [_ [l ->]]]]; [reflexivity | |];
    unfold print, fallback_document, error_document, success_document in Heq;
    rewrite !zero_embedding_floats, !json_dumps_document in Heq;
    discriminate Heq.
Qed.

Hypothesis repr_finite_number :
  forall s m e, is_json_number (repr_finite s m e) = true.

(** The line [print(json.dumps(d))] writes for such a document: Python's
    decoder reads it; so does a decoder that keeps to RFC 8259 when no
    float of the list is [nan] or infinite. *)
Lemma document_json_line (c : pystr) (l : list pyfloat) :
  json_line true
    (print (json_dumps repr_finite
              (PyDict [ (py "caption", PyStr c);
                        (py "embedding", PyList (map PyFloat l)) ])))
    (JObject [ (py "caption", JString (decoded c));
               (py "embedding", JArray (map (float_json repr_finite) l)) ])
  /\ (forallb is_finite_float l = true ->
      json_line false
        (print (json_dumps repr_finite
                  (PyDict [ (py "caption", PyStr c);
                            (py "embedding", PyList (map PyFloat l)) ])))
        (JObject [ (py "caption", JString (decoded c));
                   (py "embedding",
                    JArray (map (float_json repr_finite) l)) ])).
Proof.
  split; [| intros Hfin]; eexists; (split; [reflexivity |]);
    (split; [now apply json_dumps_document_printable |]).
  - rewrite json_loads_document; [reflexivity | assumption |].
    apply forallb_forall. reflexivity.
  - rewrite json_loads_document; [reflexivity | assumption |].
    unfold readable. exact Hfin.
Qed.

End Runs.

(** The usage document, on its line. *)
Lemma usage_json_line (repr_finite : bool -> positive -> Z -> pystr) :
  json_line false (print (json_dumps repr_finite (PyDict usage)))
    (JObject [ (py "error",
                JString (py "Usage: clip2_process.py <image_path>")) ]).
Proof. eexists. repeat split; reflexivity. Qed.

(** ** The samples *)

(** X1 on a run: every path is an image whose features are
    [[0.6, 0.8]]. *)
Lemma process_image_success_witness :
  process_image true library_with_images (py "photo.png") =
    (success_calls (py "photo.png"),
     Ok [ (py "caption", PyStr (py "Image from photo.png"));
          (py "embedding",
           PyList [PyFloat three_fifths; PyFloat four_fifths]) ]).
Proof.
  exact (@process_image_success library_with_images (py "photo.png")
           tt tt tt tt tt [three_fifths; four_fifths]
           [S754_finite false 1 0] [three_fifths; four_fifths]
           [three_fifths; four_fifths] [three_fifths; four_fifths]
           eq_refl eq_refl eq_refl eq_refl eq_refl eq_refl eq_refl eq_refl
           eq_refl eq_refl eq_refl).
Defined.

Lemma sample_repr_number (s : bool) (m : positive) (e : Z) :
  is_json_number (sample_repr s m e) = true.
Proof.
  unfold sample_repr.
  destruct (Pos.eqb m 5404319552844595); [reflexivity |].
  destruct (Pos.eqb m 7205759403792794); reflexivity.
Qed.

Lemma module_level_available (env : environment) (w : pystr) :
  module_level env = (w, Ok true) -> w = [].
Proof.
  unfold module_level.
  destruct (import_torch env); [| discriminate].
  destruct (import_PIL_Image env); [| discriminate].
  destruct (import_transformers env) as [u | e].
  - intros H. now injection H as <-.
  - destruct (isinstance e ImportError); discriminate.
Qed.

(** * The specification, property by property *)

(** C1, as the script has it.  The handler is [except Exception]: an
    exception raised by any call of the [try] body (loading the checkpoint,
    opening or converting the image, the inference, the normalisation) is
    caught when it is an instance of [Exception]; [process_image] then
    returns the document with the caption
    [Error processing image: <str(e)>] and 512 zeros, and the program prints
    it and exits 0.  An exception that is not an instance of [Exception]
    ([KeyboardInterrupt], [SystemExit], [GeneratorExit]) leaves
    [process_image] and ends the program. *)
Theorem exception_becomes_error_document
    (repr_finite : bool -> positive -> Z -> pystr) (L : library)
    (image_path : pystr) (e : exn) :
  snd (try_body L image_path) = Raise e ->
  if isinstance e Exception then
    snd (process_image true L image_path) =
      Ok [ (py "caption",
            PyStr (py "Error processing image: " ++ exn_str e));
           (py "embedding", PyList (repeat (PyFloat (S754_zero false)) 512)) ]
    /\ forall script more,
         stdout (main repr_finite true L (script :: image_path :: more)) =
           print (json_dumps repr_finite
                    (PyDict
                       [ (py "caption",
                          PyStr (py "Error processing image: " ++ exn_str e));
                         (py "embedding",
                          PyList (repeat (PyFloat (S754_zero false)) 512)) ]))
         /\ status (main repr_finite true L (script :: image_path :: more)) =
              Exit 0
  else
    snd (process_image true L image_path) = Raise e
    /\ forall script more,
         stdout (main repr_finite true L (script :: image_path :: more)) = []
         /\ status (main repr_finite true L (script :: image_path :: more)) =
              Uncaught e.
Proof.
  intros H.
  destruct (try_body L image_path) as [tr r] eqn:E. cbn [snd] in H. subst r.
  destruct (isinstance e Exception) eqn:He.
  - pose proof (process_image_caught _ _ E He) as Hp. split.
    + now rewrite Hp.
    + intros script more.
      now rewrite (@main_returned repr_finite _ _ script _ more _ _ Hp).
  - pose proof (process_image_uncaught _ _ E He) as Hp. split.
    + now rewrite Hp.
    + intros script more.
      now rewrite (@main_raised repr_finite _ _ script _ more _ _ Hp).
Qed.

(** C1 on a run: no file exists, [Image.open] raises [FileNotFoundError],
    and the caption reports it. *)
Lemma exception_becomes_error_document_witness :
  snd (try_body library_without_files (py "photo.png")) =
    Raise (mk_exn FileNotFoundError
             (py "[Errno 2] No such file or directory: 'photo.png'"))
  /\ snd (process_image true library_without_files (py "photo.png")) =
       Ok [ (py "caption",
             PyStr (py "Error processing image: [Errno 2] No such file or directory: 'photo.png'"));
            (py "embedding", PyList (repeat (PyFloat (S754_zero false)) 512)) ]
  /\ status (main sample_repr true library_without_files sample_argv) = Exit 0.
Proof.
  assert (H : snd (try_body library_without_files (py "photo.png")) =
              Raise (mk_exn FileNotFoundError
                       (py "[Errno 2] No such file or directory: 'photo.png'")))
    by reflexivity.
  pose proof (exception_becomes_error_document sample_repr
                library_without_files (py "photo.png") H) as [Hd Hm].
  split; [exact H | split; [exact Hd |]].
  exact (proj2 (Hm (py "clip2_process.py") [])).
Defined.

(** C1 as stated fails: the user interrupts the run while the image is being
    opened; the [KeyboardInterrupt] is not an [Exception], passes the
    handler, and the program ends without a document and without exit
    code 0. *)
Lemma interrupt_escapes_process_image :
  snd (try_body library_interrupted (py "photo.png")) =
    Raise (mk_exn KeyboardInterrupt [])
  /\ snd (process_image true library_interrupted (py "photo.png")) =
       Raise (mk_exn KeyboardInterrupt [])
  /\ status (main sample_repr true library_interrupted sample_argv) =
       Uncaught (mk_exn KeyboardInterrupt [])
  /\ ~ (forall L image_path e,
          snd (try_body L image_path) = Raise e ->
          snd (process_image true L image_path) = Ok (error_document e)).
Proof.
  repeat split; try reflexivity.
  intros H.
  specialize (H library_interrupted (py "photo.png")
                (mk_exn KeyboardInterrupt []) eq_refl).
  discriminate H.
Qed.

(** C2.  Without the inference library ([HAS_CLIP] is [False]),
    [process_image] returns, for every path, exactly the dict with the
    caption [Image: <path>] and an embedding of 512 floats, each [0.0]. *)
Theorem fallback_document_returned (L : library) (image_path : pystr) :
  snd (process_image false L image_path) =
    Ok [ (py "caption", PyStr (py "Image: " ++ image_path));
         (py "embedding", PyList (repeat (PyFloat (S754_zero false)) 512)) ]
  /\ List.length (repeat (PyFloat (S754_zero false)) 512) = 512%nat.
Proof.
  split.
  - reflexivity.
  - apply repeat_length.
Qed.

(** C3.  With no path argument ([len(sys.argv) < 2]) the block under
    [__main__] writes nothing on standard output, writes on standard error
    one line that holds the JSON object with the single key [error], and
    exits with code 1.  For the whole script this is what happens once the
    imports at the top have succeeded (the warning about [transformers], if
    any, precedes the line); when one of them fails nothing is written on
    standard output either. *)
Theorem missing_argument_usage_error
    (repr_finite : bool -> positive -> Z -> pystr) (HAS_CLIP : bool)
    (L : library) (argv : list pystr) :
  (List.length argv < 2)%nat ->
  main repr_finite HAS_CLIP L argv =
    {| stdout := [];
       stderr :=
         print (json_dumps repr_finite
                  (PyDict [ (py "error",
                             PyStr (py "Usage: clip2_process.py <image_path>")) ]));
       calls := [];
       status := Exit 1 |}
  /\ json_line false
       (print (json_dumps repr_finite
                 (PyDict [ (py "error",
                            PyStr (py "Usage: clip2_process.py <image_path>")) ])))
       (JObject [ (py "error",
                   JString (py "Usage: clip2_process.py <image_path>")) ])
  /\ forall env,
       stdout (run repr_finite env argv) = []
       /\ match module_level env with
          | (w, Ok _) =>
              status (run repr_finite env argv) = Exit 1
              /\ stderr (run repr_finite env argv) =
                   w ++ print (json_dumps repr_finite
                                 (PyDict [ (py "error",
                                            PyStr (py "Usage: clip2_process.py <image_path>")) ]))
          | (_, Raise e) => status (run repr_finite env argv) = Uncaught e
          end.
Proof.
  intros H. split; [now apply main_usage | split; [apply usage_json_line |]].
  intros env. destruct (module_level env) as [w [h | e]] eqn:E.
  - rewrite (@run_loaded repr_finite env argv w h E),
      (@main_usage repr_finite h (lib env) argv H).
    auto.
  - rewrite (@run_not_loaded repr_finite env argv w e E). auto.
Qed.

(** C3 on a run: [python clip2_process.py], [transformers] installed. *)
Lemma missing_argument_usage_error_witness :
  (List.length [py "clip2_process.py"] < 2)%nat
  /\ status (main sample_repr true library_with_images
               [py "clip2_process.py"]) = Exit 1
  /\ stdout (main sample_repr true library_with_images
               [py "clip2_process.py"]) = [].
Proof.
  assert (H : (List.length [py "clip2_process.py"] < 2)%nat)
    by (cbn [List.length]; lia).
  pose proof (@missing_argument_usage_error sample_repr true
                library_with_images _ H) as [Hm _].
  split; [exact H |]. now rewrite Hm.
Defined.

(** C5, as the script has it.  Whatever a run writes as its result is one
    line that Python's own decoder reads.  Standard output is empty or is
    one line of printable ASCII holding the text of the document
    [process_image] returned, which [json.loads] reads as an object with the
    keys [caption] and [embedding], the caption unchanged when it is made
    of Unicode scalar values.  The line is JSON in the sense of RFC 8259
    when no float of the embedding is [nan] or infinite, as in the fallback
    and the error document; [json.dumps] writes those floats as [NaN],
    [Infinity] and [-Infinity], which that grammar does not have.  The
    usage document on standard error is one line of RFC 8259 JSON. *)
Theorem printed_result_is_json
    (repr_finite : bool -> positive -> Z -> pystr)
    (repr_finite_number :
       forall s m e, is_json_number (repr_finite s m e) = true)
    (env : environment) (argv : list pystr) :
  (stdout (run repr_finite env argv) = []
   \/ exists c l,
        stdout (run repr_finite env argv) =
          print (json_dumps repr_finite
                   (PyDict [ (py "caption", PyStr c);
                             (py "embedding", PyList (map PyFloat l)) ]))
        /\ json_line true (stdout (run repr_finite env argv))
             (JObject [ (py "caption", JString (decoded c));
                        (py "embedding",
                         JArray (map (float_json repr_finite) l)) ])
        /\ (forallb is_finite_float l = true ->
            json_line false (stdout (run repr_finite env argv))
              (JObject [ (py "caption", JString (decoded c));
                         (py "embedding",
                          JArray (map (float_json repr_finite) l)) ]))
        /\ (forallb is_scalar c = true -> decoded c = c))
  /\ forall w h,
       module_level env = (w, Ok h) ->
       (List.length argv < 2)%nat ->
       stderr (run repr_finite env argv) =
         w ++ print (json_dumps repr_finite (PyDict usage))
       /\ json_line false (print (json_dumps repr_finite (PyDict usage)))
            (JObject [ (py "error",
                        JString (py "Usage: clip2_process.py <image_path>")) ]).
Proof.
  split.
  - destruct (module_level env) as [w [h | e]] eqn:E.
    + rewrite (@run_loaded repr_finite env argv w h E). cbn [stdout].
      destruct argv as [| script [| image_path more]].
      * left. now rewrite main_usage by (cbn [List.length]; lia).
      * left. now rewrite main_usage by (cbn [List.length]; lia).
      * destruct (process_image h (lib env) image_path) as [tr [d | e]] eqn:P.
        -- rewrite (@main_returned repr_finite _ _ script _ more _ _ P).
           cbn [stdout]. right.
           destruct (@process_image_document _ _ _ _ _ P) as [c [l ->]].
           exists c, l. split; [reflexivity |].
           destruct (@document_json_line repr_finite repr_finite_number c l)
             as [Hpy Hrfc].
           repeat split; try assumption. apply decoded_scalar.
        -- left.
           now rewrite (@main_raised repr_finite _ _ script _ more _ _ P).
    + left. now rewrite (@run_not_loaded repr_finite env argv w e E).
  - intros w h E H. split; [| apply usage_json_line].
    now rewrite (@run_loaded repr_finite env argv w h E),
      (@main_usage repr_finite h (lib env) argv H).
Qed.

(** C5 on a run: [python clip2_process.py photo.png] with every library
    installed; the embedding is [[0.6, 0.8]]. *)
Lemma printed_result_is_json_witness :
  (forall s m e, is_json_number (sample_repr s m e) = true)
  /\ (stdout (run sample_repr (environment_of (Ok tt) library_with_images)
                sample_argv) = []
      \/ exists c l,
           stdout (run sample_repr
                     (environment_of (Ok tt) library_with_images)
                     sample_argv) =
             print (json_dumps sample_repr
                      (PyDict [ (py "caption", PyStr c);
                                (py "embedding", PyList (map PyFloat l)) ]))
           /\ json_line true
                (stdout (run sample_repr
                           (environment_of (Ok tt) library_with_images)
                           sample_argv))
                (JObject [ (py "caption", JString (decoded c));
                           (py "embedding",
                            JArray (map (float_json sample_repr) l)) ])
           /\ (forallb is_finite_float l = true ->
               json_line false
                 (stdout (run sample_repr
                            (environment_of (Ok tt) library_with_images)
                            sample_argv))
                 (JObject [ (py "caption", JString (decoded c));
                            (py "embedding",
                             JArray (map (float_json sample_repr) l)) ]))
           /\ (forallb is_scalar c = true -> decoded c = c)).
Proof.
  split; [exact sample_repr_number |].
  exact (proj1 (@printed_result_is_json sample_repr sample_repr_number
                  (environment_of (Ok tt) library_with_images) sample_argv)).
Defined.

(** C5 as stated fails: the model gives a zero feature vector, the division
    by its norm gives [nan], and the run prints, with exit code 0, a line
    that holds [NaN] twice: no decoder that keeps to RFC 8259 reads it. *)
Lemma nan_line_is_not_strict_json :
  status (run sample_repr (environment_of (Ok tt) library_zero_features)
            sample_argv) = Exit 0
  /\ stdout (run sample_repr (environment_of (Ok tt) library_zero_features)
               sample_argv) =
       print (json_dumps sample_repr
                (PyDict (success_document (py "photo.png")
                           [S754_nan; S754_nan])))
  /\ json_loads false
       (json_dumps sample_repr
          (PyDict (success_document (py "photo.png") [S754_nan; S754_nan]))) =
       None
  /\ ~ (exists v,
          json_line false
            (stdout (run sample_repr
                       (environment_of (Ok tt) library_zero_features)
                       sample_argv)) v).
Proof.
  split; [reflexivity | split; [reflexivity | split; [reflexivity |]]].
  intros [v [text [Ht [_ Hl]]]].
  change (stdout (run sample_repr
                    (environment_of (Ok tt) library_zero_features)
                    sample_argv))
    with (print (json_dumps sample_repr
                   (PyDict (success_document (py "photo.png")
                              [S754_nan; S754_nan])))) in Ht.
  unfold print in Ht. apply app_inv_tail in Ht. rewrite <- Ht in Hl.
  discriminate Hl.
Qed.

(** Where the two decoders part: [nan] is written [NaN], which Python reads
    and RFC 8259 does not have. *)
Example nan_is_read_by_python_only :
  json_loads true (json_dumps sample_repr (PyList [PyFloat S754_nan])) =
    Some (JArray [JConstant (py "NaN")])
  /\ json_loads false (json_dumps sample_repr (PyList [PyFloat S754_nan])) =
       None.
Proof. split; reflexivity. Qed.

(** The line of that run, read by a decoder that keeps to RFC 8259. *)
Example sample_run_line :
  json_line false
    (stdout (run sample_repr (environment_of (Ok tt) library_with_images)
               sample_argv))
    (JObject [ (py "caption", JString (py "Image from photo.png"));
               (py "embedding",
                JArray [JNumber (py "0.6"); JNumber (py "0.8")]) ]).
Proof. eexists. repeat split; reflexivity. Qed.

(** C6, as the script has it.  With a path argument, and once
    [process_image] has returned its document, the block under [__main__]
    writes on standard output exactly one line, the JSON text of that
    document, writes nothing on standard error, and the exit code is 0.  For
    the whole script, once the imports at the top have succeeded, standard
    error holds the warning about [transformers] or nothing.
    ([process_image] does not return when an exception that is not an
    [Exception] is raised inside its [try].) *)
Theorem one_json_line_on_stdout
    (repr_finite : bool -> positive -> Z -> pystr)
    (repr_finite_number :
       forall s m e, is_json_number (repr_finite s m e) = true)
    (HAS_CLIP : bool) (L : library) (script image_path : pystr)
    (more : list pystr) (tr : list call) (d : pydict) :
  process_image HAS_CLIP L image_path = (tr, Ok d) ->
  main repr_finite HAS_CLIP L (script :: image_path :: more) =
    {| stdout := print (json_dumps repr_finite (PyDict d));
       stderr := [];
       calls := tr;
       status := Exit 0 |}
  /\ (exists v, json_line true (print (json_dumps repr_finite (PyDict d))) v)
  /\ forall env w,
       lib env = L ->
       module_level env = (w, Ok HAS_CLIP) ->
       stdout (run repr_finite env (script :: image_path :: more)) =
         print (json_dumps repr_finite (PyDict d))
       /\ stderr (run repr_finite env (script :: image_path :: more)) = w
       /\ (w = [] \/ w = print warning)
       /\ status (run repr_finite env (script :: image_path :: more)) = Exit 0.
Proof.
  intros H.
  pose proof (@main_returned repr_finite _ _ script _ more _ _ H) as Hm.
  split; [exact Hm | split].
  - destruct (@process_image_document _ _ _ _ _ H) as [c [l ->]].
    eexists. apply (@document_json_line repr_finite repr_finite_number).
  - intros env w <- E.
    rewrite (@run_loaded repr_finite env _ w _ E), Hm. cbn [stdout stderr status].
    rewrite app_nil_r. repeat split.
    destruct HAS_CLIP.
    + left. now apply (@module_level_available env).
    + right. now apply (@module_level_fallback env).
Qed.

(** C6 on a run: [python clip2_process.py photo.png] without
    [transformers]. *)
Lemma one_json_line_on_stdout_witness :
  process_image false library_with_images (py "photo.png") =
    ([], Ok (fallback_document (py "photo.png")))
  /\ main sample_repr false library_with_images sample_argv =
       {| stdout := print (json_dumps sample_repr
                             (PyDict (fallback_document (py "photo.png"))));
          stderr := [];
          calls := [];
          status := Exit 0 |}.
Proof.
  assert (H : process_image false library_with_images (py "photo.png") =
              ([], Ok (fallback_document (py "photo.png"))))
    by reflexivity.
  split; [exact H |].
  exact (proj1 (@one_json_line_on_stdout sample_repr sample_repr_number
                  false library_with_images (py "clip2_process.py")
                  (py "photo.png") [] [] _ H)).
Defined.

(** C6 as stated fails: a path is given, the run is interrupted while the
    image is being opened, and the program ends with nothing on standard
    output and not with exit code 0. *)
Lemma interrupted_run_prints_nothing :
  (2 <= List.length sample_argv)%nat
  /\ stdout (run sample_repr (environment_of (Ok tt) library_interrupted)
               sample_argv) = []
  /\ status (run sample_repr (environment_of (Ok tt) library_interrupted)
               sample_argv) = Uncaught (mk_exn KeyboardInterrupt [])
  /\ status (run sample_repr (environment_of (Ok tt) library_interrupted)
               sample_argv) <> Exit 0.
Proof.
  split; [cbn [List.length sample_argv]; lia |].
  repeat split; try reflexivity. discriminate.
Qed.

(** C7.  Without the inference library [process_image] returns the
    fallback document and makes no external call at all: in particular it
    does not open, or otherwise touch, the file at the path.  The same holds
    for the block under [__main__] that calls it and for the whole run. *)
Theorem fallback_reads_no_file (repr_finite : bool -> positive -> Z -> pystr)
    (L : library) (image_path : pystr) (argv : list pystr) :
  process_image false L image_path = ([], Ok (fallback_document image_path))
  /\ ~ In (CallImageOpen image_path) (fst (process_image false L image_path))
  /\ calls (main repr_finite false L argv) = []
  /\ forall env w,
       module_level env = (w, Ok false) ->
       calls (run repr_finite env argv) = [].
Proof.
  assert (Hm : forall L', calls (main repr_finite false L' argv) = []).
  { intros L'. unfold main.
    destruct (List.length argv <? 2)%nat; reflexivity. }
  split; [reflexivity | split; [intros [] | split; [apply Hm |]]].
  intros env w E. rewrite (@run_loaded repr_finite env argv w false E).
  apply Hm.
Qed.

(** C8.  The fallback belongs to [transformers] alone.  [import torch] and
    [from PIL import Image] stand outside the [try]: when either raises, as
    it does with [ModuleNotFoundError], an [ImportError], when the module is
    missing, the exception is not handled and the run ends before [sys.argv]
    is looked at, with nothing on standard output whatever the arguments.
    And a run prints the fallback document only if both imports succeeded
    and the import of [transformers] raised an [ImportError]. *)
Theorem fallback_only_without_transformers
    (repr_finite : bool -> positive -> Z -> pystr) (env : environment)
    (argv : list pystr) :
  (forall e,
     import_torch env = Raise e ->
     run repr_finite env argv =
       {| stdout := []; stderr := []; calls := []; status := Uncaught e |})
  /\ (forall u e,
        import_torch env = Ok u ->
        import_PIL_Image env = Raise e ->
        run repr_finite env argv =
          {| stdout := []; stderr := []; calls := []; status := Uncaught e |})
  /\ (forall m,
        exists e, missing m = Raise e
                  /\ exn_class e = ModuleNotFoundError
                  /\ isinstance e ImportError = true)
  /\ (forall path,
        stdout (run repr_finite env argv) =
          print (json_dumps repr_finite (PyDict (fallback_document path))) ->
        (exists u, import_torch env = Ok u)
        /\ (exists u, import_PIL_Image env = Ok u)
        /\ exists e, import_transformers env = Raise e
                     /\ isinstance e ImportError = true).
Proof.
  split; [| split; [| split]].
  - intros e H. apply run_not_loaded with (w := []).
    unfold module_level. now rewrite H.
  - intros u e H1 H2. apply run_not_loaded with (w := []).
    unfold module_level. now rewrite H1, H2.
  - intros m. eexists. repeat split.
  - intros path H.
    assert (Hlen : forall out : pystr, [] = print out -> False).
    { intros out Ho. apply (f_equal (@List.length N)) in Ho.
      unfold print in Ho. rewrite length_app in Ho.
      cbn [List.length] in Ho. lia. }
    destruct (module_level env) as [w [h | e]] eqn:E.
    + rewrite (@run_loaded repr_finite env argv w h E) in H.
      cbn [stdout] in H.
      assert (Hh : h = false).
      { destruct argv as [| script [| image_path more]];
          try (rewrite main_usage in H by (cbn [List.length]; lia);
               now apply Hlen in H).
        destruct (process_image h (lib env) image_path) as [tr [d | e]] eqn:P.
        - rewrite (@main_returned repr_finite _ _ script _ more _ _ P) in H.
          cbn [stdout] in H.
          exact (@fallback_text_distinct repr_finite _ _ _ _ _ _ P H).
        - rewrite (@main_raised repr_finite _ _ script _ more _ _ P) in H.
          now apply Hlen in H. }
      subst h. now apply (@module_level_fallback env w E).
    + rewrite (@run_not_loaded repr_finite env argv w e E) in H.
      now apply Hlen in H.
Qed.

(** C8 on two runs: without [torch] the program ends on the
    [ModuleNotFoundError], path or no path, [transformers] or not. *)
Lemma fallback_only_without_transformers_witness :
  run sample_repr
    {| import_torch := missing "torch";
       import_PIL_Image := Ok tt;
       import_transformers := missing "transformers";
       lib := library_with_images |} sample_argv =
    {| stdout := [];
       stderr := [];
       calls := [];
       status := Uncaught (mk_exn ModuleNotFoundError
                             (py "No module named 'torch'")) |}.
Proof.
  exact (proj1 (fallback_only_without_transformers sample_repr
                  {| import_torch := missing "torch";
                     import_PIL_Image := Ok tt;
                     import_transformers := missing "transformers";
                     lib := library_with_images |} sample_argv)
               _ eq_refl).
Defined.

(** C9.  Whatever [process_image] returns, in the branch without the
    library, at the end of the [try] body or from the handler, is a dict
    whose keys are [caption] and [embedding], in this order, the first a
    string and the second a list of floats.  It returns in each of these
    branches; it raises only what the handler does not catch. *)
Theorem result_shape (HAS_CLIP : bool) (L : library) (image_path : pystr) :
  match snd (process_image HAS_CLIP L image_path) with
  | Ok d =>
      keys d = [py "caption"; py "embedding"]
      /\ (exists c, dict_get d (py "caption") = Some (PyStr c))
      /\ (exists l, dict_get d (py "embedding") = Some (PyList l)
                    /\ forallb is_float l = true)
  | Raise e =>
      HAS_CLIP = true
      /\ snd (try_body L image_path) = Raise e
      /\ isinstance e Exception = false
  end.
Proof.
  destruct HAS_CLIP.
  - destruct (try_body L image_path) as [tr [d | e]] eqn:E.
    + rewrite (process_image_returned _ _ E). cbn [snd].
      destruct (@try_body_returns L image_path d) as [emb ->].
      { now rewrite E. }
      repeat split.
      * now exists (py "Image from " ++ image_path).
      * exists (map PyFloat emb). split; [reflexivity |].
        apply forallb_forall. intros x Hx.
        apply in_map_iff in Hx. now destruct Hx as [f [<- _]].
    + destruct (isinstance e Exception) eqn:He.
      * rewrite (process_image_caught _ _ E He). cbn [snd].
        repeat split.
        -- now exists (py "Error processing image: " ++ exn_str e).
        -- exists (repeat (PyFloat zero) 512). split; [reflexivity |].
           apply forallb_forall. intros x Hx.
           now rewrite (repeat_spec _ _ _ Hx).
      * rewrite (process_image_uncaught _ _ E He). cbn [snd]. auto.
  - rewrite process_image_fallback. cbn [snd].
    repeat split.
    + now exists (py "Image: " ++ image_path).
    + exists (repeat (PyFloat zero) 512). split; [reflexivity |].
      apply forallb_forall. intros x Hx.
      now rewrite (repeat_spec _ _ _ Hx).
Qed.

(** C10.  Only [sys.argv[1]] is read: two runs in the same environment
    whose first argument is the same path leave the same text on both
    streams, make the same calls and end the same way, whatever the name of
    the script and the further arguments are. *)
Theorem extra_arguments_ignored (repr_finite : bool -> positive -> Z -> pystr)
    (env : environment) (argv argv' : list pystr) (image_path : pystr) :
  nth_error argv 1 = Some image_path ->
  nth_error argv' 1 = Some image_path ->
  run repr_finite env argv = run repr_finite env argv'.
Proof.
  intros H H'.
  destruct argv as [| script [| p more]]; try discriminate H.
  destruct argv' as [| script' [| p' more']]; try discriminate H'.
  cbn [nth_error] in H, H'. injection H as ->. injection H' as ->.
  unfold run. destruct (module_level env) as [w [h | e]]; [| reflexivity].
  unfold main. cbn [List.length Nat.ltb Nat.leb nth]. reflexivity.
Qed.

(** C10 on two runs: [python clip2_process.py photo.png] and
    [python ./clip2_process.py photo.png --verbose other.png]. *)
Lemma extra_arguments_ignored_witness :
  run sample_repr (environment_of (Ok tt) library_with_images)
    [py "clip2_process.py"; py "photo.png"] =
  run sample_repr (environment_of (Ok tt) library_with_images)
    [py "./clip2_process.py"; py "photo.png"; py "--verbose";
     py "other.png"].
Proof.
  exact (@extra_arguments_ignored sample_repr
           (environment_of (Ok tt) library_with_images)
           [py "clip2_process.py"; py "photo.png"]
           [py "./clip2_process.py"; py "photo.png"; py "--verbose";
            py "other.png"]
           (py "photo.png") eq_refl eq_refl).
Defined.

(** * Further properties of the script *)

(** ** The order of the external calls *)

Lemma in_firstn {A : Type} (x : A) (n : nat) (l : list A) :
  In x (firstn n l) -> In x l.
Proof.
  intros H. rewrite <- (firstn_skipn n l). apply in_or_app. now left.
Qed.

Lemma nodup_firstn {A : Type} (n : nat) (l : list A) :
  NoDup l -> NoDup (firstn n l).
Proof.
  intros H. rewrite <- (firstn_skipn n l) in H.
  now apply NoDup_app_remove_r in H.
Qed.

Lemma success_calls_nodup (image_path : pystr) :
  NoDup (success_calls image_path).
Proof.
  unfold success_calls.
  repeat (constructor; [cbn [In]; intuition discriminate |]).
  constructor.
Qed.

Lemma error_not_success (e : exn) (image_path : pystr) (l : list pyfloat) :
  error_document e <> success_document image_path l.
Proof.
  intros H. apply (f_equal (caption_char 0)) in H. discriminate H.
Qed.

Lemma error_not_fallback (e : exn) (image_path : pystr) :
  error_document e <> fallback_document image_path.
Proof.
  intros H. apply (f_equal (caption_char 0)) in H. discriminate H.
Qed.

Lemma fallback_not_success (p p' : pystr) (l : list pyfloat) :
  fallback_document p <> success_document p' l.
Proof.
  intros H. apply (f_equal (caption_char 5)) in H. discriminate H.
Qed.

(** The handler makes no call. *)
Lemma process_image_calls (L : library) (image_path : pystr) :
  fst (process_image true L image_path) = fst (try_body L image_path).
Proof.
  destruct (try_body L image_path) as [tr [d | e]] eqn:E.
  - now rewrite (process_image_returned _ _ E).
  - destruct (isinstance e Exception) eqn:He.
    + now rewrite (process_image_caught _ _ E He).
    + now rewrite (process_image_uncaught _ _ E He).
Qed.

Lemma try_body_calls_prefix (L : library) (image_path : pystr) :
  exists n,
    (1 <= n <= 11)%nat
    /\ fst (try_body L image_path) = firstn n (success_calls image_path)
    /\ ((exists d, snd (try_body L image_path) = Ok d) -> n = 11%nat).
Proof.
  unfold try_body.
  repeat (step_call; cbn [fst snd]);
    unfold ret; cbn [fst snd];
    match goal with
    | |- exists n, _ /\ ?tr = _ /\ _ =>
        exists (List.length tr); cbn [List.length];
        split; [lia | split; [reflexivity |]];
        first [ reflexivity | intros [d Hd]; discriminate Hd ]
    end.
Qed.

(** A run that returns the success document made every call. *)
Lemma process_image_success_calls (L : library) (image_path : pystr)
    (l : list pyfloat) :
  snd (process_image true L image_path) =
    Ok (success_document image_path l) ->
  fst (process_image true L image_path) = success_calls image_path.
Proof.
  intros Hl. rewrite process_image_calls.
  destruct (try_body_calls_prefix L image_path) as [n [Hn [Hp Hs]]].
  rewrite Hp.
  destruct (try_body L image_path) as [tr [d | e]] eqn:E.
  - rewrite Hs by (cbn [snd]; eauto). reflexivity.
  - destruct (isinstance e Exception) eqn:He.
    + rewrite (process_image_caught _ _ E He) in Hl. cbn [snd] in Hl.
      exfalso. apply (@error_not_success e image_path l). congruence.
    + rewrite (process_image_uncaught _ _ E He) in Hl. discriminate Hl.
Qed.

(** X2.  With the library available, [process_image] stops at the first
    call that raises: when the [n]-th call of the sequence is the first to
    raise, exactly the first [n] calls have been made, in order, nothing is
    called after it, the [except] handler makes no call, and the result is
    the error document of that exception or, if it is not an [Exception],
    the exception itself; when no call raises, all eleven have been made
    and the success document is returned.  No call is ever made twice. *)
Theorem process_image_stops_at_first_raise (L : library)
    (image_path : pystr) :
  match CLIPModel_from_pretrained L model_name with
  | Raise e => process_image true L image_path = stopped image_path 1 e
  | Ok mdl =>
  match CLIPProcessor_from_pretrained L model_name with
  | Raise e => process_image true L image_path = stopped image_path 2 e
  | Ok prc =>
  match Image_open L image_path with
  | Raise e => process_image true L image_path = stopped image_path 3 e
  | Ok opened =>
  match image_convert L opened (py "RGB") with
  | Raise e => process_image true L image_path = stopped image_path 4 e
  | Ok img =>
  match processor_call L prc img (py "pt") with
  | Raise e => process_image true L image_path = stopped image_path 5 e
  | Ok inp =>
  match no_grad L with
  | Raise e => process_image true L image_path = stopped image_path 6 e
  | Ok _ =>
  match get_image_features L mdl inp with
  | Raise e => process_image true L image_path = stopped image_path 7 e
  | Ok features =>
  match tensor_norm L features (-1) true with
  | Raise e => process_image true L image_path = stopped image_path 8 e
  | Ok nrm =>
  match tensor_truediv L features nrm with
  | Raise e => process_image true L image_path = stopped image_path 9 e
  | Ok normalized =>
  match tensor_getitem L normalized 0 with
  | Raise e => process_image true L image_path = stopped image_path 10 e
  | Ok row =>
  match tensor_tolist L row with
  | Raise e => process_image true L image_path = stopped image_path 11 e
  | Ok embedding =>
      process_image true L image_path =
        (success_calls image_path,
         Ok (success_document image_path embedding))
  end end end end end end end end end end end
  /\ NoDup (fst (process_image true L image_path)).
Proof.
  split.
  - unfold process_image, try_except, try_body, stopped. cbn [negb].
    repeat (step_call; cbn [fst snd]);
      try (destruct (isinstance _ Exception); reflexivity).
    reflexivity.
  - rewrite process_image_calls.
    destruct (try_body_calls_prefix L image_path) as [n [_ [Hp _]]].
    rewrite Hp. apply nodup_firstn, success_calls_nodup.
Qed.

(** X2 on a run: no file exists, so the third call raises; the checkpoint
    has been loaded, nothing follows [Image.open]. *)
Lemma process_image_stops_at_first_raise_witness :
  process_image true library_without_files (py "photo.png") =
    ([ CallModelFromPretrained model_name;
       CallProcessorFromPretrained model_name;
       CallImageOpen (py "photo.png") ],
     Ok (error_document
           (mk_exn FileNotFoundError
              (py "[Errno 2] No such file or directory: 'photo.png'")))).
Proof.
  exact (proj1 (process_image_stops_at_first_raise library_without_files
                  (py "photo.png"))).
Defined.



(** ** Whole runs *)

Section MoreRuns.

Variable repr_finite : bool -> positive -> Z -> pystr.

(** Every call of a run is one of the calls [process_image] makes for
    [sys.argv[1]]. *)
Lemma run_calls_known (env : environment) (argv : list pystr) (c : call) :
  In c (calls (run repr_finite env argv)) ->
  exists p, nth_error argv 1 = Some p /\ In c (success_calls p).
Proof.
  destruct (module_level env) as [w [h | e]] eqn:E.
  - rewrite (@run_loaded repr_finite env argv w h E). cbn [calls].
    destruct argv as [| script [| p more]];
      try (rewrite main_usage by (cbn [List.length]; lia); intros []).
    destruct (process_image h (lib env) p) as [tr r] eqn:P.
    assert (Hc : calls (main repr_finite h (lib env) (script :: p :: more))
                 = tr).
    { destruct r as [d | e].
      - now rewrite (@main_returned repr_finite _ _ script _ more _ _ P).
      - now rewrite (@main_raised repr_finite _ _ script _ more _ _ P). }
    rewrite Hc. intros Hin. exists p. split; [reflexivity |].
    destruct h.
    + destruct (try_body_calls_prefix (lib env) p) as [n [_ [Hp _]]].
      rewrite <- process_image_calls, P in Hp. cbn [fst] in Hp.
      rewrite Hp in Hin. now apply in_firstn in Hin.
    + rewrite process_image_fallback in P. injection P as <- _.
      destruct Hin.
  - rewrite (@run_not_loaded repr_finite env argv w e E). intros [].
Qed.

End MoreRuns.

(** X4.  What a run never does: it opens no path other than [sys.argv[1]],
    and it loads no checkpoint other than [openai/clip-vit-base-patch32],
    whatever the arguments and the environment are. *)
Theorem run_opens_only_its_argument
    (repr_finite : bool -> positive -> Z -> pystr) (env : environment)
    (argv : list pystr) :
  (forall q,
     In (CallImageOpen q) (calls (run repr_finite env argv)) ->
     nth_error argv 1 = Some q)
  /\ (forall name,
        In (CallModelFromPretrained name) (calls (run repr_finite env argv))
        \/ In (CallProcessorFromPretrained name)
             (calls (run repr_finite env argv)) ->
        name = py "openai/clip-vit-base-patch32").
Proof.
  split.
  - intros q H. destruct (run_calls_known _ _ _ _ H) as [p [Hp Hin]].
    rewrite Hp. cbn [success_calls In] in Hin.
    repeat (destruct Hin as [Hin | Hin]; try discriminate Hin);
      [now injection Hin as -> | destruct Hin].
  - intros name [H | H];
      destruct (run_calls_known _ _ _ _ H) as [p [_ Hin]];
      cbn [success_calls In] in Hin;
      repeat (destruct Hin as [Hin | Hin]; try discriminate Hin);
      try (now injection Hin as <-); destruct Hin.
Qed.




(** X6.  All the script itself writes on standard error is the warning line,
    when [transformers] could not be imported, and then the usage line, when
    the path argument is missing.  The warning is plain text, so with both
    present standard error as a whole is not a JSON document: only its last
    line is. *)
Theorem stderr_lines
    (repr_finite : bool -> positive -> Z -> pystr) (env : environment)
    (argv : list pystr) :
  match module_level env with
  | (_, Ok HAS_CLIP) =>
      stderr (run repr_finite env argv) =
        (if HAS_CLIP then [] else print warning)
        ++ (if (List.length argv <? 2)%nat
            then print (json_dumps repr_finite (PyDict usage))
            else [])
  | (_, Raise _) => stderr (run repr_finite env argv) = []
  end
  /\ json_loads true warning = None
  /\ json_loads true
       (print warning ++ print (json_dumps repr_finite (PyDict usage))) = None.
Proof.
  split; [| split; reflexivity].
  destruct (module_level env) as [w [h | e]] eqn:E.
  - rewrite (@run_loaded repr_finite env argv w h E). cbn [stderr].
    assert (Hw : w = if h then [] else print warning).
    { destruct h.
      - now apply (@module_level_available env).
      - now apply (@module_level_fallback env). }
    rewrite Hw. f_equal.
    destruct argv as [| script [| p more]];
      try (now rewrite main_usage by (cbn [List.length]; lia)).
    cbn [List.length Nat.ltb Nat.leb].
    destruct (process_image h (lib env) p) as [tr [d | e]] eqn:P.
    + now rewrite (@main_returned repr_finite _ _ script _ more _ _ P).
    + now rewrite (@main_raised repr_finite _ _ script _ more _ _ P).
  - rewrite (@run_not_loaded repr_finite env argv w e E). cbn [stderr].
    unfold module_level in E.
    destruct (import_torch env); [| now injection E as <-].
    destruct (import_PIL_Image env); [| now injection E as <-].
    destruct (import_transformers env) as [| e']; [discriminate |].
    destruct (isinstance e' ImportError); [discriminate |].
    now injection E as <-.
Qed.

(** X7.  Only an [ImportError] from the import of [transformers] is
    handled.  When that import raises one, the warning is written and the
    run goes on without the library; when it raises anything else, as a
    broken installation does, the exception is unhandled: no warning, no
    fallback, and the run ends before the arguments are looked at. *)
Theorem transformers_import_guard
    (repr_finite : bool -> positive -> Z -> pystr) (env : environment)
    (argv : list pystr) (u v : unit) (e : exn) :
  import_torch env = Ok u ->
  import_PIL_Image env = Ok v ->
  import_transformers env = Raise e ->
  if isinstance e ImportError then
    run repr_finite env argv =
      {| stdout := stdout (main repr_finite false (lib env) argv);
         stderr := print warning
                   ++ stderr (main repr_finite false (lib env) argv);
         calls := [];
         status := status (main repr_finite false (lib env) argv) |}
  else
    run repr_finite env argv =
      {| stdout := []; stderr := []; calls := []; status := Uncaught e |}.
Proof.
  intros H1 H2 H3.
  destruct (isinstance e ImportError) eqn:He.
  - rewrite (@run_loaded repr_finite env argv (print warning) false).
    + f_equal. unfold main.
      destruct (List.length argv <? 2)%nat; reflexivity.
    + unfold module_level. now rewrite H1, H2, H3, He.
  - apply run_not_loaded with (w := []).
    unfold module_level. now rewrite H1, H2, H3, He.
Qed.

(** X7 on a run: [transformers] is installed and broken. *)
Lemma transformers_import_guard_witness :
  run sample_repr (environment_of broken_transformers library_with_images)
    sample_argv =
    {| stdout := [];
       stderr := [];
       calls := [];
       status :=
         Uncaught (mk_exn RuntimeError
                     (py "Failed to import transformers.models.clip.modeling_clip")) |}.
Proof.
  exact (@transformers_import_guard sample_repr
           (environment_of broken_transformers library_with_images)
           sample_argv tt tt
           (mk_exn RuntimeError
              (py "Failed to import transformers.models.clip.modeling_clip"))
           eq_refl eq_refl eq_refl).
Defined.

(** ** The printed line, read back *)

(** The text of a document whose embedding is all [0.0] does not depend on
    [float.__repr__]. *)
Lemma json_dumps_zeros (rf rf' : bool -> positive -> Z -> pystr)
    (k1 c k2 : pystr) (n : nat) :
  json_dumps rf
    (PyDict [(k1, PyStr c); (k2, PyList (map PyFloat (repeat zero n)))]) =
  json_dumps rf'
    (PyDict [(k1, PyStr c); (k2, PyList (map PyFloat (repeat zero n)))]).
Proof.
  rewrite !json_dumps_document. unfold float_items.
  now rewrite !map_repeat.
Qed.

Lemma zero_document_loads (rf : bool -> positive -> Z -> pystr) (c : pystr) :
  json_loads false
    (json_dumps rf
       (PyDict [(py "caption", PyStr c); (py "embedding", zero_embedding)])) =
    Some (JObject [ (py "caption", JString (decoded c));
                    (py "embedding",
                     JArray (repeat (JNumber (py "0.0")) 512)) ]).
Proof.
  rewrite zero_embedding_floats, (json_dumps_zeros rf sample_repr).
  rewrite (@json_loads_document sample_repr sample_repr_number).
  - now rewrite map_repeat.
  - apply forallb_forall. intros x Hx. now rewrite (repeat_spec _ _ _ Hx).
Qed.

Lemma zero_document_line (rf : bool -> positive -> Z -> pystr) (c : pystr) :
  json_line false
    (print (json_dumps rf
              (PyDict [ (py "caption", PyStr c);
                        (py "embedding", zero_embedding) ])))
    (JObject [ (py "caption", JString (decoded c));
               (py "embedding", JArray (repeat (JNumber (py "0.0")) 512)) ]).
Proof.
  eexists. split; [reflexivity | split; [| apply zero_document_loads]].
  rewrite zero_embedding_floats, (json_dumps_zeros rf sample_repr).
  apply (@json_dumps_document_printable sample_repr sample_repr_number).
Qed.

Lemma prefixed_scalar (prefix s : pystr) :
  forallb is_scalar prefix = true ->
  forallb is_scalar s = true ->
  decoded (prefix ++ s) = prefix ++ s.
Proof.
  intros Hp Hs. apply decoded_scalar. now rewrite forallb_app, Hp, Hs.
Qed.

(** X8.  Without the library, the line a run prints for a path is JSON in
    the strict sense of RFC 8259, whatever characters the path holds and
    whatever [float.__repr__] does: it decodes to an object with exactly the
    keys [caption] and [embedding], the second an array of 512 numbers
    [0.0]; and for a path of Unicode scalar values the caption read back is
    [Image: ] followed by the path, unchanged. *)
Theorem fallback_line_round_trip
    (repr_finite : bool -> positive -> Z -> pystr) (env : environment)
    (w script image_path : pystr) (more : list pystr) :
  module_level env = (w, Ok false) ->
  json_line false
    (stdout (run repr_finite env (script :: image_path :: more)))
    (JObject [ (py "caption", JString (decoded (py "Image: " ++ image_path)));
               (py "embedding", JArray (repeat (JNumber (py "0.0")) 512)) ])
  /\ (forallb is_scalar image_path = true ->
      decoded (py "Image: " ++ image_path) = py "Image: " ++ image_path).
Proof.
  intros E. split.
  - rewrite (@run_loaded repr_finite env _ w false E). cbn [stdout].
    rewrite (@main_returned repr_finite _ _ script _ more _ _
               (process_image_fallback (lib env) image_path)).
    cbn [stdout]. apply zero_document_line.
  - now apply prefixed_scalar.
Qed.

(** X8 on a run: [python clip2_process.py photo.png] without
    [transformers]. *)
Lemma fallback_line_round_trip_witness :
  json_line false
    (stdout (run sample_repr
               (environment_of (missing "transformers") library_with_images)
               sample_argv))
    (JObject [ (py "caption", JString (py "Image: photo.png"));
               (py "embedding", JArray (repeat (JNumber (py "0.0")) 512)) ]).
Proof.
  exact (proj1 (@fallback_line_round_trip sample_repr
                  (environment_of (missing "transformers")
                     library_with_images)
                  (print warning) (py "clip2_process.py") (py "photo.png")
                  [] eq_refl)).
Defined.

(** X9.  The message of a caught exception cannot break the output: whatever
    [str(e)] holds (quotes, backslashes, line breaks, any code point), the
    line printed for the error document is one line of RFC 8259 JSON with
    the two keys and 512 numbers [0.0], and a message of Unicode scalar
    values is read back unchanged after [Error processing image: ]. *)
Theorem error_line_round_trip
    (repr_finite : bool -> positive -> Z -> pystr) (L : library)
    (script image_path : pystr) (more : list pystr) (e : exn) :
  snd (try_body L image_path) = Raise e ->
  isinstance e Exception = true ->
  json_line false
    (stdout (main repr_finite true L (script :: image_path :: more)))
    (JObject [ (py "caption",
                JString (decoded (py "Error processing image: "
                                  ++ exn_str e)));
               (py "embedding", JArray (repeat (JNumber (py "0.0")) 512)) ])
  /\ (forallb is_scalar (exn_str e) = true ->
      decoded (py "Error processing image: " ++ exn_str e) =
        py "Error processing image: " ++ exn_str e).
Proof.
  intros H He. split.
  - destruct (try_body L image_path) as [tr r] eqn:E. cbn [snd] in H.
    subst r.
    rewrite (@main_returned repr_finite _ _ script _ more _ _
               (process_image_caught _ _ E He)).
    cbn [stdout]. apply zero_document_line.
  - now apply prefixed_scalar.
Qed.

(** X9 on a run: a message with a line break and quotes. *)
Lemma error_line_round_trip_witness :
  json_line false
    (stdout (main sample_repr true
               (sample_library (fun _ =>
                  Raise (mk_exn ValueError
                           (py "bad" ++ [10; 34] ++ py "image" ++ [34]))))
               sample_argv))
    (JObject [ (py "caption",
                JString (py "Error processing image: bad" ++ [10; 34]
                         ++ py "image" ++ [34]));
               (py "embedding", JArray (repeat (JNumber (py "0.0")) 512)) ]).
Proof.
  exact (proj1 (@error_line_round_trip sample_repr
                  (sample_library (fun _ =>
                     Raise (mk_exn ValueError
                              (py "bad" ++ [10; 34] ++ py "image" ++ [34]))))
                  (py "clip2_process.py") (py "photo.png") []
                  (mk_exn ValueError
                     (py "bad" ++ [10; 34] ++ py "image" ++ [34]))
                  eq_refl eq_refl)).
Defined.

(** X10.  Without the library the printed line determines the path: two
    paths of Unicode scalar values that give the same line are the same
    path. *)
Theorem fallback_line_determines_path
    (repr_finite : bool -> positive -> Z -> pystr) (p p' : pystr) :
  forallb is_scalar p = true ->
  forallb is_scalar p' = true ->
  print (json_dumps repr_finite (PyDict (fallback_document p))) =
  print (json_dumps repr_finite (PyDict (fallback_document p'))) ->
  p = p'.
Proof.
  intros Hp Hp' H. unfold print in H. apply app_inv_tail in H.
  pose proof (zero_document_loads repr_finite (py "Image: " ++ p)) as L1.
  pose proof (zero_document_loads repr_finite (py "Image: " ++ p')) as L2.
  unfold fallback_document in H. rewrite H in L1.
  assert (D : decoded (py "Image: " ++ p) = decoded (py "Image: " ++ p'))
    by congruence.
  rewrite !prefixed_scalar in D by (assumption || reflexivity).
  now apply app_inv_head in D.
Qed.

(** X10 on two paths that differ: their lines differ. *)
Lemma fallback_line_determines_path_witness :
  forallb is_scalar (py "photo.png") = true
  /\ forallb is_scalar (py "photo.jpg") = true
  /\ print (json_dumps sample_repr
              (PyDict (fallback_document (py "photo.png")))) <>
       print (json_dumps sample_repr
                (PyDict (fallback_document (py "photo.jpg")))).
Proof.
  split; [reflexivity | split; [reflexivity |]].
  intros H.
  pose proof (@fallback_line_determines_path sample_repr (py "photo.png")
                (py "photo.jpg") eq_refl eq_refl H) as E.
  discriminate E.
Defined.

(** Outside the scalar values two paths can share a line: a high and a low
    surrogate side by side are written like the one character they
    encode. *)
Example surrogate_paths_share_a_line :
  print (json_dumps sample_repr
           (PyDict (fallback_document [55296; 56320]))) =
  print (json_dumps sample_repr (PyDict (fallback_document [65536]))).
Proof. reflexivity. Qed.

(** X11.  The line tells which branch wrote it: the lines of the fallback
    document, of the error document and of the success document never
    coincide, whatever the paths, the message and the embedding are. *)
Theorem lines_tell_branches
    (repr_finite : bool -> positive -> Z -> pystr) (p p' : pystr) (e : exn)
    (l : list pyfloat) :
  print (json_dumps repr_finite (PyDict (fallback_document p))) <>
    print (json_dumps repr_finite (PyDict (error_document e)))
  /\ print (json_dumps repr_finite (PyDict (fallback_document p))) <>
       print (json_dumps repr_finite (PyDict (success_document p' l)))
  /\ print (json_dumps repr_finite (PyDict (error_document e))) <>
       print (json_dumps repr_finite (PyDict (success_document p' l))).
Proof.
  repeat split; intros H;
    unfold print, fallback_document, error_document, success_document in H;
    rewrite ?zero_embedding_floats, !json_dumps_document in H.
  - apply (f_equal (fun s => nth 13 s 0)) in H. discriminate H.
  - apply (f_equal (fun s => nth 18 s 0)) in H. discriminate H.
  - apply (f_equal (fun s => nth 13 s 0)) in H. discriminate H.
Qed.

(** X12.  A run in which the library is available and [process_image]
    returns the success document: every call was made, standard error is
    empty, the exit code is 0, and the one line on standard output decodes
    to the caption and to as many numbers as the embedding has floats. *)
Theorem successful_run
    (repr_finite : bool -> positive -> Z -> pystr)
    (repr_finite_number :
       forall s m e, is_json_number (repr_finite s m e) = true)
    (env : environment) (w script image_path : pystr) (more : list pystr)
    (tr : list call) (embedding : list pyfloat) :
  module_level env = (w, Ok true) ->
  process_image true (lib env) image_path =
    (tr, Ok (success_document image_path embedding)) ->
  run repr_finite env (script :: image_path :: more) =
    {| stdout := print (json_dumps repr_finite
                          (PyDict (success_document image_path embedding)));
       stderr := [];
       calls := success_calls image_path;
       status := Exit 0 |}
  /\ json_line true
       (print (json_dumps repr_finite
                 (PyDict (success_document image_path embedding))))
       (JObject [ (py "caption",
                   JString (decoded (py "Image from " ++ image_path)));
                  (py "embedding",
                   JArray (map (float_json repr_finite) embedding)) ])
  /\ List.length (map (float_json repr_finite) embedding) =
       List.length embedding.
Proof.
  intros E P. split; [| split].
  - rewrite (@run_loaded repr_finite env _ w true E).
    rewrite (@main_returned repr_finite _ _ script _ more _ _ P).
    cbn [stdout stderr calls status].
    rewrite (@module_level_available env w E).
    f_equal.
    rewrite <- (@process_image_success_calls (lib env) image_path embedding)
      by now rewrite P.
    now rewrite P.
  - apply (@document_json_line repr_finite repr_finite_number).
  - apply length_map.
Qed.

(** X12 on a run: [python clip2_process.py photo.png] with every library
    installed. *)
Lemma successful_run_witness :
  run sample_repr (environment_of (Ok tt) library_with_images) sample_argv =
    {| stdout := print (json_dumps sample_repr
                          (PyDict (success_document (py "photo.png")
                                     [three_fifths; four_fifths])));
       stderr := [];
       calls := success_calls (py "photo.png");
       status := Exit 0 |}.
Proof.
  exact (proj1 (@successful_run sample_repr sample_repr_number
                  (environment_of (Ok tt) library_with_images) []
                  (py "clip2_process.py") (py "photo.png") []
                  (success_calls (py "photo.png"))
                  [three_fifths; four_fifths] eq_refl eq_refl)).
Defined.
